(** * Price-optimization dashboard (app.py): a shallow embedding

    The script has three modes chosen from a sidebar menu:
    single-customer prediction, batch prediction from an Excel sheet, and
    visual analytics over an already scored sheet.  Each mode is embedded
    as a function in a small state-and-exception monad: the state holds
    the remote service, the log of the request bodies that were posted
    and the log of what was rendered; an uncaught Python exception ends
    the script run. *)

From Stdlib Require Import List String Ascii ZArith QArith Qabs Bool Lia.
From Stdlib Require Import DecimalString.
Import ListNotations.
Open Scope string_scope.
Open Scope Z_scope.

(** ** Values *)

(** Python values that occur as spreadsheet cells, JSON members and
    widget values.  A float is carried by the rational it denotes; [VNaN]
    is the float NaN pandas uses for an empty cell, [VNone] is Python's
    [None] (JSON null).  Only scalars are modelled: a JSON member that is
    itself an array or an object has no counterpart here. *)
Inductive value : Type :=
| VNone
| VNaN
| VBool (b : bool)
| VInt (z : Z)
| VFloat (q : Q)
| VStr (s : string).

(** pandas' [isna]: both [None] and NaN count as missing. *)
Definition isna (v : value) : bool :=
  match v with
  | VNone | VNaN => true
  | _ => false
  end.

(** Python truthiness, as used by [... if out[k] else ...]. *)
Definition truthy (v : value) : bool :=
  match v with
  | VNone => false
  | VNaN => true
  | VBool b => b
  | VInt z => negb (z =? 0)
  | VFloat q => negb (Qeq_bool q 0)
  | VStr s => negb (String.eqb s "")
  end.

(** The number a cell stands for in arithmetic ([True] is 1). *)
Definition as_number (v : value) : option Q :=
  match v with
  | VBool b => Some (if b then 1%Q else 0%Q)
  | VInt z => Some (inject_Z z)
  | VFloat q => Some q
  | _ => None
  end.

(** Python's [==] together with [hash]: [1], [1.0] and [True] are one
    dictionary key, which is what the [rename] of the analytics mode
    relies on. *)
Definition py_eq (a b : value) : bool :=
  match as_number a, as_number b with
  | Some x, Some y => Qeq_bool x y
  | _, _ =>
      match a, b with
      | VNone, VNone => true
      | VStr s, VStr t => String.eqb s t
      | _, _ => false
      end
  end.

(** ** Number formatting *)

Definition str_of_Z (z : Z) : string := NilZero.string_of_int (Z.to_int z).

(** Round a non-negative rational to the nearest integer, ties to even. *)
Definition round_half_even (q : Q) : Z :=
  let n := Qnum q in
  let d := Z.pos (Qden q) in
  let fl := n / d in
  let r := n mod d in
  match 2 * r ?= d with
  | Lt => fl
  | Gt => fl + 1
  | Eq => if Z.even fl then fl else fl + 1
  end.

Fixpoint zero_pad (width : nat) (s : string) : string :=
  match width with
  | O => s
  | S w => if (String.length s <? width)%nat then zero_pad w ("0" ++ s) else s
  end.

(** Python's [format(x, ".<digits>f")] on the number [q]: the digits of
    [q] itself, rounded half to even.  The code formats a double; where
    that double is not exactly [q] (after a float division or product)
    its last digit can differ from the one given here. *)
Definition format_fixed (digits : nat) (q : Q) : string :=
  let neg := match Qnum q with Z.neg _ => true | _ => false end in
  let scale := 10 ^ Z.of_nat digits in
  let n := round_half_even (Qabs q * inject_Z scale) in
  let int_part := str_of_Z (n / scale) in
  let frac := zero_pad digits (str_of_Z (n mod scale)) in
  (if neg then "-" else "") ++ int_part ++
  (match digits with O => "" | _ => "." ++ frac end).

(** ** Exceptions and the script monad *)

Inductive exn : Type :=
| ConnectionError
| Timeout
| InvalidJSONError
| JSONDecodeError
| KeyError (key : string)
| TypeError
| ValueError
| IllegalCharacterError.

Inductive result (A : Type) : Type :=
| Ok (a : A)
| Raise (e : exn).
Arguments Ok {A} a.
Arguments Raise {A} e.

(** ** HTTP *)

(** A decoded JSON document: an object with its members, or anything
    else (an array, a number, a string, null). *)
Inductive json_value : Type :=
| JObject (members : list (string * value))
| JOther.

(** A [requests.Response]: [decoded] is what [resp.json()] returns, with
    [None] for a body that is not JSON. *)
Record Response : Type := mkResponse {
  status_code : Z;
  text : string;
  decoded : option json_value
}.

(** [resp.json()] *)
Definition json (resp : Response) : result json_value :=
  match decoded resp with
  | Some out => Ok out
  | None => Raise JSONDecodeError
  end.

Fixpoint assoc (key : string) (members : list (string * value)) : option value :=
  match members with
  | [] => None
  | (k, v) :: members' => if String.eqb k key then Some v else assoc key members'
  end.

(** [out[key]] *)
Definition subscript (out : json_value) (key : string) : result value :=
  match out with
  | JObject members =>
      match assoc key members with
      | Some v => Ok v
      | None => Raise (KeyError key)
      end
  | JOther => Raise TypeError
  end.

(** [requests.post] either returns a response or raises (connection
    failure, timeout, a body that cannot be serialised). *)
Inductive post_outcome : Type :=
| Responded (resp : Response)
| PostRaised (e : exn).

(** [Response.ok]: [raise_for_status] raises exactly for 400..599. *)
Definition ok (resp : Response) : bool :=
  negb ((400 <=? status_code resp) && (status_code resp <? 600)).

Definition payload : Type := list (string * value).

(** [requests.post] turns the body into JSON before anything is sent, and
    refuses a NaN in it. *)
Definition serialisable (body : payload) : bool :=
  forallb (fun kv => match snd kv with VNaN => false | _ => true end) body.

Definition API_URL : string := "https://price-optimization-n20m.onrender.com/predict/".

(** ** Data frames *)

(** A pandas [DataFrame] as [pd.read_excel] returns it: the header row
    and the data rows in file order.  [read_excel] renames repeated
    headers, so the labels of a sheet read from a file are distinct. *)
Record DataFrame : Type := mkDF {
  columns : list string;
  rows : list (list value)
}.

(** Every row has one cell per column and no label is repeated. *)
Definition well_formed (df : DataFrame) : Prop :=
  NoDup (columns df) /\
  Forall (fun row => List.length row = List.length (columns df)) (rows df).

(** [df.head()] *)
Definition head (df : DataFrame) : DataFrame :=
  mkDF (columns df) (firstn 5 (rows df)).

(** Cells a float64 array can hold, and the cast of a cell to float64:
    an integer becomes the float of the same value and [None] becomes
    NaN. *)
Definition is_float_cell (v : value) : bool :=
  match v with
  | VFloat _ | VNaN => true
  | _ => false
  end.

Definition is_int_cell (v : value) : bool :=
  match v with
  | VInt _ => true
  | _ => false
  end.

Definition is_none_cell (v : value) : bool :=
  match v with
  | VNone => true
  | _ => false
  end.

Definition astype_float (v : value) : value :=
  match v with
  | VInt z => VFloat (inject_Z z)
  | VNone => VNaN
  | _ => v
  end.

(** [df.iterrows()]: each row is handed out as a Series of the common
    dtype of the columns.  When every column is numeric (integers, floats
    and empty cells only) and one of them is a float column, that dtype
    is float64 and the integer cells come out as floats; with a text or
    boolean column the dtype is object and the cells come out as stored. *)
Definition float_frame (df : DataFrame) : bool :=
  forallb (forallb (fun v => is_int_cell v || is_float_cell v)) (rows df) &&
  existsb (existsb is_float_cell) (rows df).

Definition iterrows (df : DataFrame) : list (list value) :=
  if float_frame df then map (map astype_float) (rows df) else rows df.

(** [row.to_dict()] for a row of [df.iterrows()]. *)
Definition to_dict (cols : list string) (row : list value) : payload :=
  combine cols row.

Definition keys (d : payload) : list string := map fst d.

Fixpoint index_of (name : string) (cols : list string) : option nat :=
  match cols with
  | [] => None
  | c :: cols' =>
      if String.eqb c name then Some O
      else option_map S (index_of name cols')
  end.

Definition has_column (df : DataFrame) (name : string) : bool :=
  match index_of name (columns df) with
  | Some _ => true
  | None => false
  end.

(** [{...}.issubset(df.columns)] *)
Definition issubset (names : list string) (df : DataFrame) : bool :=
  forallb (has_column df) names.

(** [df[name]] read as a column. *)
Definition getitem (df : DataFrame) (name : string) : result (list value) :=
  match index_of name (columns df) with
  | Some i => Ok (map (fun row => nth i row VNaN) (rows df))
  | None => Raise (KeyError name)
  end.

Fixpoint replace_nth (i : nat) (v : value) (row : list value) : list value :=
  match row, i with
  | [], _ => []
  | _ :: row', O => v :: row'
  | c :: row', S i' => c :: replace_nth i' v row'
  end.

Fixpoint zip_with {A B C : Type} (f : A -> B -> C) (xs : list A) (ys : list B) : list C :=
  match xs, ys with
  | x :: xs', y :: ys' => f x y :: zip_with f xs' ys'
  | _, _ => []
  end.

(** The dtype pandas infers for a list assigned as a column.  A list of
    numbers and [None]s that has a float, or has both an integer and a
    [None], becomes a float64 column: integers turn into floats and
    [None] into NaN.  Any other list (booleans, text, integers only,
    [None] only) is stored as it is. *)
Definition float_column (vals : list value) : bool :=
  forallb (fun v => is_int_cell v || is_float_cell v || is_none_cell v) vals &&
  (existsb is_float_cell vals ||
   (existsb is_int_cell vals && existsb is_none_cell vals)).

Definition infer_objects (vals : list value) : list value :=
  if float_column vals then map astype_float vals else vals.

(** Writing the cells of a column: an existing column is overwritten in
    place, a new one is appended on the right; a list of the wrong length
    is refused. *)
Definition store_column (df : DataFrame) (name : string) (vals : list value)
  : result DataFrame :=
  if negb (List.length vals =? List.length (rows df))%nat then Raise ValueError
  else
    match index_of name (columns df) with
    | Some i =>
        Ok (mkDF (columns df)
                 (zip_with (fun row v => replace_nth i v row) (rows df) vals))
    | None =>
        Ok (mkDF (columns df ++ [name])%list
                 (zip_with (fun row v => (row ++ [v])%list) (rows df) vals))
    end.

(** [df[name] = vals] for a Python list [vals]. *)
Definition setitem (df : DataFrame) (name : string) (vals : list value)
  : result DataFrame :=
  store_column df name (infer_objects vals).

(** [Series.mean()]: missing cells are skipped ([skipna=True]); the sum
    and the count of the remaining cells are accumulated in one pass.
    No cell left gives NaN, written [None]; a text cell cannot be
    summed.  The quotient is the exact one: the rounding of the float
    division is not modelled. *)
Fixpoint nansum (col : list value) (total : Q) (count : nat)
  : result (Q * nat) :=
  match col with
  | [] => Ok (total, count)
  | v :: col' =>
      if isna v then nansum col' total count
      else
        match as_number v with
        | Some x => nansum col' (total + x)%Q (S count)
        | None => Raise TypeError
        end
  end.

Definition mean (col : list value) : result (option Q) :=
  match nansum col 0%Q O with
  | Ok (_, O) => Ok None
  | Ok (total, count) => Ok (Some (total / inject_Z (Z.of_nat count))%Q)
  | Raise e => Raise e
  end.

(** [Series.value_counts()]: missing cells are dropped ([dropna=True]),
    equal cells are tallied under the first of them, and the tallies are
    listed in decreasing order. *)
Fixpoint tally (v : value) (acc : list (value * nat)) : list (value * nat) :=
  match acc with
  | [] => [(v, 1%nat)]
  | (k, n) :: acc' =>
      if py_eq k v then (k, S n) :: acc' else (k, n) :: tally v acc'
  end.

Definition tally_all (col : list value) : list (value * nat) :=
  fold_left (fun acc v => if isna v then acc else tally v acc) col [].

Fixpoint insert_desc (e : value * nat) (sorted : list (value * nat))
  : list (value * nat) :=
  match sorted with
  | [] => [e]
  | e' :: sorted' =>
      if (snd e' <=? snd e)%nat then e :: sorted
      else e' :: insert_desc e sorted'
  end.

Definition sort_desc (counts : list (value * nat)) : list (value * nat) :=
  fold_right insert_desc [] counts.

Definition value_counts (col : list value) : list (value * nat) :=
  sort_desc (tally_all col).

(** [.rename(index=mapping)]: a label that is a key of the mapping is
    replaced, any other label is kept. *)
Fixpoint lookup_label (mapping : list (value * string)) (label : value) : value :=
  match mapping with
  | [] => label
  | (k, s) :: mapping' =>
      if py_eq k label then VStr s else lookup_label mapping' label
  end.

Definition rename (mapping : list (value * string)) (counts : list (value * nat))
  : list (value * nat) :=
  map (fun e => (lookup_label mapping (fst e), snd e)) counts.

(** The height of the bar drawn for [label]. *)
Definition bar (label : string) (counts : list (value * nat)) : nat :=
  list_sum (map snd (filter (fun e => py_eq (fst e) (VStr label)) counts)).

(** ** Widgets and rendering *)

(** [st.number_input] with its [min_value], [max_value] and [value]
    arguments: the widget delivers the number entered when it lies within
    the bounds, and its default [value] when nothing was entered or the
    entry lies outside them. *)
Definition within {A : Type} (leb : A -> A -> bool)
  (min_value max_value : option A) (x : A) : bool :=
  match min_value with Some lo => leb lo x | None => true end &&
  match max_value with Some hi => leb x hi | None => true end.

Definition number_input {A : Type} (leb : A -> A -> bool)
  (min_value max_value : option A) (value : A) (entry : option A) : A :=
  match entry with
  | Some x => if within leb min_value max_value x then x else value
  | None => value
  end.

(** [st.selectbox]: the option picked, the first one to begin with. *)
Definition selectbox {A : Type} (options : list A) (fallback : A) (pick : option nat) : A :=
  match pick with
  | Some i => nth i options (hd fallback options)
  | None => hd fallback options
  end.

(** [st.sidebar.radio]: likewise. *)
Definition radio (options : list string) (pick : option nat) : string :=
  selectbox options "" pick.

Inductive ui_event : Type :=
| st_set_page_config (page_title page_icon layout : string)
| st_title (s : string)
| st_header (s : string)
| st_subheader (s : string)
| st_markdown (s : string)
| st_write (caption : option string) (df : DataFrame)
| st_error (s : string)
| st_success (s : string)
| st_metric (label shown_value : string)
| st_pyplot (column : list value) (bins : nat) (xlabel ylabel : string)
| st_bar_chart (counts : list (value * nat))
| st_download_button (label data file_name mime : string).

(** [f"{prob:.1%}"]: which values can be formatted, and the digits of
    the exact percentage for those that can (see [format_fixed]). *)
Definition format_percent1 (prob : value) : result string :=
  match prob with
  | VNone => Raise TypeError
  | VStr _ => Raise ValueError
  | VNaN => Ok "nan%"
  | _ =>
      match as_number prob with
      | Some q => Ok (format_fixed 1 (q * 100)%Q ++ "%")
      | None => Raise TypeError
      end
  end.

(** [f"{pct:.2f}%"] where [pct] is a float, possibly NaN. *)
Definition format_pct (pct : option Q) : string :=
  match pct with
  | Some q => format_fixed 2 q ++ "%"
  | None => "nan%"
  end.

(** ** The script *)

(** What the user did in the single-prediction form: the number entered
    in each number field, if any, the options picked, and whether the
    button was pressed. *)
Record form : Type := mkForm {
  total_spent_entry : option Q;
  avg_order_value_entry : option Q;
  avg_purchase_frequency_entry : option Q;
  days_since_last_purchase_entry : option Z;
  discount_behavior_entry : option Q;
  loyalty_program_member_pick : option nat;
  days_in_advance_entry : option Z;
  flight_type_pick : option nat;
  cabin_class_pick : option nat;
  predict_pressed : bool
}.

Definition label_continue : string := "✅ Likely to **continue** buying".
Definition label_stop : string := "⚠️ Likely to **stop** buying".

Definition newline : string := String (ascii_of_nat 10) EmptyString.

Definition xlsx_mime : string :=
  "application/vnd.openxmlformats-officedocument.spreadsheetml.sheet".

Definition intro : string :=
  "This tool lets revenue managers at booking platforms (Expedia, Kayak, …) **score individual
    customers or entire files** to see who is likely to keep buying after a price increase.
    Upload an Excel sheet or play with single-customer inputs. You can also explore aggregate
    probability distributions under *Visual Analytics*.".

(** The values of the nine widgets of the form. *)
Definition total_spent (f : form) : Q :=
  number_input Qle_bool (Some 0%Q) None 0%Q (total_spent_entry f).
Definition avg_order_value (f : form) : Q :=
  number_input Qle_bool (Some 0%Q) None 0%Q (avg_order_value_entry f).
Definition avg_purchase_frequency (f : form) : Q :=
  number_input Qle_bool (Some 0%Q) None 0%Q (avg_purchase_frequency_entry f).
Definition days_since_last_purchase (f : form) : Z :=
  number_input Z.leb (Some 0) None 30 (days_since_last_purchase_entry f).
Definition discount_behavior (f : form) : Q :=
  number_input Qle_bool (Some 0%Q) (Some 1%Q) (2 # 10)%Q (discount_behavior_entry f).
Definition loyalty_program_member (f : form) : Z :=
  selectbox [0; 1] 0 (loyalty_program_member_pick f).
Definition days_in_advance (f : form) : Z :=
  number_input Z.leb (Some 0) None 14 (days_in_advance_entry f).
Definition flight_type (f : form) : string :=
  selectbox ["domestic"; "international"] "" (flight_type_pick f).
Definition cabin_class (f : form) : string :=
  selectbox ["economy"; "business"] "" (cabin_class_pick f).

(** The request body built when "Predict" is pressed. *)
Definition single_payload (f : form) : payload :=
  [ ("total_spent", VFloat (total_spent f));
    ("avg_order_value", VFloat (avg_order_value f));
    ("avg_purchase_frequency", VFloat (avg_purchase_frequency f));
    ("days_since_last_purchase", VInt (days_since_last_purchase f));
    ("discount_behavior", VFloat (discount_behavior f));
    ("loyalty_program_member", VInt (loyalty_program_member f));
    ("days_in_advance", VInt (days_in_advance f));
    ("flight_type", VStr (flight_type f));
    ("cabin_class", VStr (cabin_class f)) ].

Section Script.

(** The remote service: it answers a body sent to it and moves on.  The
    writer of the workbook: [df.to_excel(writer, index=False)] through
    openpyxl, which gives the bytes of the file or raises. *)
Context {World : Type}.
Variable post : payload -> World -> post_outcome * World.
Variable to_excel : DataFrame -> result string.

(** The state of a script run: the service, the bodies [requests.post]
    was called with, in order, and what was rendered. *)
Record session : Type := mkSession {
  world : World;
  posted : list payload;
  shown : list ui_event
}.

Definition M (A : Type) : Type := session -> result A * session.

Definition ret {A : Type} (a : A) : M A := fun s => (Ok a, s).

Definition bind {A B : Type} (c : M A) (k : A -> M B) : M B :=
  fun s =>
    match c s with
    | (Ok a, s') => k a s'
    | (Raise e, s') => (Raise e, s')
    end.

Definition lift {A : Type} (r : result A) : M A := fun s => (r, s).

Definition show (e : ui_event) : M unit :=
  fun s => (Ok tt, mkSession (world s) (posted s) (shown s ++ [e])).

(** [requests.post(API_URL, json=body, timeout=10)]: a body that cannot
    be turned into JSON raises before the service is reached; any other
    body is sent, and the service answers or the call raises. *)
Definition requests_post (body : payload) : M Response :=
  fun s =>
    if serialisable body then
      let (outcome, w) := post body (world s) in
      let s' := mkSession w (posted s ++ [body]) (shown s) in
      match outcome with
      | Responded resp => (Ok resp, s')
      | PostRaised e => (Raise e, s')
      end
    else
      (Raise InvalidJSONError,
       mkSession (world s) (posted s ++ [body]) (shown s)).

Notation "x <- c ;; k" := (bind c (fun x => k))
  (at level 61, c at next level, right associativity).
Notation "c ;;; k" := (bind c (fun _ => k))
  (at level 61, right associativity).

(** *** 1 -- Single-customer prediction *)

Definition single_prediction (f : form) : M unit :=
  show (st_header "Single-customer Prediction") ;;;
  if predict_pressed f then
    resp <- requests_post (single_payload f) ;;
    if status_code resp =? 200 then
      out <- lift (json resp) ;;
      will_buy <- lift (subscript out "will_buy_after_price_increase") ;;
      let label := if truthy will_buy then label_continue else label_stop in
      prob <- lift (subscript out "probability") ;;
      percent <- lift (format_percent1 prob) ;;
      show (st_markdown ("### " ++ label ++ newline ++
                         "Probability of continuing: **" ++ percent ++ "**"))
    else
      show (st_error ("API error " ++ str_of_Z (status_code resp) ++ ": " ++ text resp))
  else ret tt.

(** *** 2 -- Batch prediction *)

(** The loop over [df.iterrows()]. *)
Fixpoint score_rows (cols : list string) (todo : list (list value))
  (preds probs : list value) : M (list value * list value) :=
  match todo with
  | [] => ret (preds, probs)
  | row :: todo' =>
      let payload := to_dict cols row in
      resp <- requests_post payload ;;
      if ok resp then
        out <- lift (json resp) ;;
        pred <- lift (subscript out "will_buy_after_price_increase") ;;
        prob <- lift (subscript out "probability") ;;
        score_rows cols todo' (preds ++ [pred])%list (probs ++ [prob])%list
      else
        score_rows cols todo' (preds ++ [VNone])%list (probs ++ [VNone])%list
  end.

(** The body of the "Run batch prediction" button up to the two column
    assignments: the scored table. *)
Definition run_batch (df : DataFrame) : M DataFrame :=
  scored <- score_rows (columns df) (iterrows df) [] [] ;;
  let (preds, probs) := scored in
  df1 <- lift (setitem df "Prediction" preds) ;;
  lift (setitem df1 "Probability" probs).

Definition batch_prediction (uploaded : option (result DataFrame))
  (run_pressed : bool) : M unit :=
  show (st_header "Batch Prediction – Upload Excel") ;;;
  match uploaded with
  | None => ret tt
  | Some read_excel =>
      df <- lift read_excel ;;
      show (st_write (Some "Preview of uploaded data:") (head df)) ;;;
      if run_pressed then
        df' <- run_batch df ;;
        show (st_success "Batch prediction complete.") ;;;
        show (st_write None (head df')) ;;;
        towrite <- lift (to_excel df') ;;
        show (st_download_button "Download results as Excel" towrite
                                 "predictions.xlsx" xlsx_mime)
      else ret tt
  end.

(** *** 3 -- Visual analytics *)

Definition schema_message : string :=
  "File must contain 'Prediction' and 'Probability' columns.".

(** The branch taken when both columns are there. *)
Definition summarize (df : DataFrame) : M unit :=
  show (st_write (Some "Preview:") (head df)) ;;;
  prediction <- lift (getitem df "Prediction") ;;
  m <- lift (mean prediction) ;;
  let pct := option_map (fun q => (q * 100)%Q) m in
  show (st_metric "Share predicted to continue buying" (format_pct pct)) ;;;
  show (st_subheader "Probability distribution") ;;;
  probability <- lift (getitem df "Probability") ;;
  show (st_pyplot probability 20 "Probability of continuing" "Frequency") ;;;
  show (st_subheader "Segment counts") ;;;
  let count_df :=
    rename [(VInt 0, "Stop"); (VInt 1, "Continue")] (value_counts prediction) in
  show (st_bar_chart count_df).

Definition visual_analytics (uploaded : option (result DataFrame)) : M unit :=
  show (st_header "Visual Analytics – Explore existing predictions") ;;;
  match uploaded with
  | None => ret tt
  | Some read_excel =>
      df <- lift read_excel ;;
      if issubset ["Prediction"; "Probability"] df then summarize df
      else show (st_error schema_message)
  end.

(** The sidebar menu and the dispatch on its value. *)
Definition menu_options : list string :=
  ["1 Single Prediction"; "2 Batch Prediction (Excel)"; "3 Visual Analytics"].

Definition main (menu_pick : option nat) (f : form)
  (uploaded : option (result DataFrame)) (run_pressed : bool) : M unit :=
  show (st_set_page_config "Price Optimization Predictor" "💸" "wide") ;;;
  show (st_title "💸 Price Optimization – Customer Continuation After Price Increase") ;;;
  show (st_markdown intro) ;;;
  let menu := radio menu_options menu_pick in
  if String.prefix "1" menu then single_prediction f
  else if String.prefix "2" menu then batch_prediction uploaded run_pressed
  else visual_analytics uploaded.

(** Start of a script run. *)
Definition fresh (w : World) : session := mkSession w [] [].

(** The outcomes of [requests.post] for a sequence of bodies: a body
    that cannot be serialised raises without reaching the service. *)
Fixpoint replies (bodies : list payload) (w : World) : list post_outcome :=
  match bodies with
  | [] => []
  | b :: bodies' =>
      if serialisable b then
        let (o, w') := post b w in o :: replies bodies' w'
      else PostRaised InvalidJSONError :: replies bodies' w
  end.

End Script.

(** ** Reading the loop answer by answer *)

(** The two cells one pass of the batch loop appends for an answer of
    the service, or the exception that pass ends the run with. *)
Definition score_reply (o : post_outcome) : result (value * value) :=
  match o with
  | PostRaised e => Raise e
  | Responded resp =>
      if ok resp then
        match json resp with
        | Raise e => Raise e
        | Ok out =>
            match subscript out "will_buy_after_price_increase",
                  subscript out "probability" with
            | Ok pred, Ok prob => Ok (pred, prob)
            | Raise e, _ => Raise e
            | _, Raise e => Raise e
            end
        end
      else Ok (VNone, VNone)
  end.

(** The request bodies of a table, row by row. *)
Definition bodies_of (df : DataFrame) : list payload :=
  map (to_dict (columns df)) (iterrows df).

(** The bodies that went out to the service: of the calls made, those
    whose body could be serialised. *)
Definition sent (bodies : list payload) : list payload :=
  filter serialisable bodies.

(** [Series.dropna()] *)
Definition dropna (col : list value) : list value :=
  filter (fun v => negb (isna v)) col.

Definition nine_keys : list string :=
  [ "total_spent"; "avg_order_value"; "avg_purchase_frequency";
    "days_since_last_purchase"; "discount_behavior"; "loyalty_program_member";
    "days_in_advance"; "flight_type"; "cabin_class" ].

(** An answer the loop can go on from: the call returned, and a response
    that counts as a success carries a JSON object with both members. *)
Definition answered (o : post_outcome) : Prop :=
  match o with
  | PostRaised _ => False
  | Responded resp =>
      ok resp = true ->
      exists out pred prob,
        json resp = Ok out /\
        subscript out "will_buy_after_price_increase" = Ok pred /\
        subscript out "probability" = Ok prob
  end.

(** ** Sample services and tables *)

Definition good_body : json_value :=
  JObject [("will_buy_after_price_increase", VBool true);
           ("probability", VFloat (8 # 10))].

(** A service that fails its second request with status 500. *)
Definition flaky (b : payload) (n : nat) : post_outcome * nat :=
  (Responded (mkResponse (if Nat.eqb n 1 then 500 else 200)
                         "Internal Server Error" (Some good_body)), S n).

(** A service that cannot be reached. *)
Definition offline (b : payload) (n : nat) : post_outcome * nat :=
  (PostRaised ConnectionError, S n).

(** A service that answers every request with the given status. *)
Definition always (status : Z) (b : payload) (n : nat) : post_outcome * nat :=
  (Responded (mkResponse status "body text" (Some good_body)), S n).

Definition three_rows : DataFrame :=
  mkDF ["total_spent"; "cabin_class"]
       [ [VFloat 100; VStr "economy"];
         [VFloat 250; VStr "business"];
         [VFloat 75; VStr "economy"] ].

(** A service whose second request times out. *)
Definition drops_second (b : payload) (n : nat) : post_outcome * nat :=
  (if Nat.eqb n 1 then PostRaised Timeout
   else Responded (mkResponse 200 "" (Some good_body)), S n).

Definition nine_cells : list value :=
  [ VFloat 1200; VFloat 150; VFloat (3 # 2); VInt 12; VFloat (1 # 4);
    VInt 1; VInt 30; VStr "domestic"; VStr "economy" ].

(** A sheet that lacks the [cabin_class] column. *)
Definition eight_columns : DataFrame :=
  mkDF (removelast nine_keys) [removelast nine_cells].

(** A sheet with a tenth column. *)
Definition ten_columns : DataFrame :=
  mkDF (nine_keys ++ ["customer_id"])%list [(nine_cells ++ [VInt 4711])%list].

(** The form as it is first shown, with "Predict" pressed. *)
Definition untouched_form : form :=
  mkForm None None None None None None None None None true.

(** The same, after 1.01 was typed into the discount field. *)
Definition overshoot_form : form :=
  mkForm None None None None (Some (101 # 100)%Q) None None None None true.

(** An entry of 0.0 in the discount field. *)
Definition zero_form : form :=
  mkForm None None None None (Some 0%Q) None None None None true.

(** An entry of 1.0 in the discount field. *)
Definition boundary_form : form :=
  mkForm None None None None (Some 1%Q) None None None None true.

(** ** Reading the summary *)

(** A cell [Series.mean] can take in: a number, a boolean or a missing
    value. *)
Definition numeric_or_missing (v : value) : Prop :=
  isna v = true \/ exists x, as_number v = Some x.

(** The numbers of a column, missing cells left out. *)
Definition numbers (col : list value) : list Q :=
  flat_map (fun v => match as_number v with Some x => [x] | None => [] end) col.

Definition sumQ (xs : list Q) : Q := fold_right Qplus 0%Q xs.

(** The cells drawn under "Stop" and under "Continue". *)
Definition counts_as_stop (v : value) : bool :=
  py_eq (VInt 0) v || py_eq v (VStr "Stop").

Definition counts_as_continue (v : value) : bool :=
  py_eq (VInt 1) v || py_eq v (VStr "Continue").


Definition segment_names : list (value * string) :=
  [(VInt 0, "Stop"); (VInt 1, "Continue")].

(** Scored sheets as the analytics mode reads them. *)
Definition sheet_1101 : DataFrame :=
  mkDF ["total_spent"; "Prediction"; "Probability"]
       [ [VFloat 100; VInt 1; VFloat (9 # 10)];
         [VFloat 250; VInt 1; VFloat (7 # 10)];
         [VFloat 75; VInt 0; VFloat (2 # 10)];
         [VFloat 310; VInt 1; VFloat (6 # 10)] ].


(** ** More readings and samples *)

(** An answer with a failure status. *)
Definition failed (o : post_outcome) : bool :=
  match o with
  | Responded resp => negb (ok resp)
  | PostRaised _ => false
  end.

(** An answer whose members, when it counts as a success, are not null. *)
Definition carries_values (o : post_outcome) : Prop :=
  forall resp out pred,
    o = Responded resp ->
    ok resp = true ->
    json resp = Ok out ->
    subscript out "will_buy_after_price_increase" = Ok pred ->
    isna pred = false.


(** A service that answers 200 with a page that is not JSON. *)
Definition garbled (b : payload) (n : nat) : post_outcome * nat :=
  (Responded (mkResponse 200 "<html>Bad gateway</html>" None), S n).

(** A sheet with the nine headers and no data row. *)
Definition empty_sheet : DataFrame := mkDF nine_keys [].

(** A cell of an assigned column against the value it was assigned from:
    the value itself, or its float64 cast when the column came out as
    float64. *)
Definition stored_as (assigned cell : value) : Prop :=
  cell = assigned \/ cell = astype_float assigned.

(** A workbook writer that succeeds, and one that refuses the table. *)
Definition writes_workbook (df : DataFrame) : result string := Ok "PK workbook".

Definition refuses_workbook (df : DataFrame) : result string :=
  Raise IllegalCharacterError.

(** A scored sheet with a text cell among the predictions. *)
Definition sheet_with_text : DataFrame :=
  mkDF ["Prediction"; "Probability"]
       [ [VInt 1; VFloat (9 # 10)];
         [VStr "yes"; VFloat (7 # 10)] ].

(** A numeric sheet whose first row has an empty cell. *)
Definition sheet_with_empty_cell : DataFrame :=
  mkDF ["total_spent"; "days_in_advance"]
       [ [VNaN; VInt 14];
         [VFloat 120; VInt 30] ].

(** ** Data frame lemmas *)

Lemma index_of_nth_error (name : string) (cols : list string) (i : nat) :
  index_of name cols = Some i -> nth_error cols i = Some name.
Proof.
  revert i; induction cols as [|c cols IH]; intros i; simpl; [discriminate|].
  destruct (String.eqb c name) eqn:E.
  - intros [= <-]. apply String.eqb_eq in E. now subst.
  - destruct (index_of name cols) as [j|]; simpl; [|discriminate].
    intros [= <-]. simpl. now apply IH.
Qed.

Lemma index_of_lt (name : string) (cols : list string) (i : nat) :
  index_of name cols = Some i -> (i < List.length cols)%nat.
Proof.
  intros H. apply index_of_nth_error in H.
  apply nth_error_Some. congruence.
Qed.

Lemma index_of_None (name : string) (cols : list string) :
  index_of name cols = None <-> ~ In name cols.
Proof.
  induction cols as [|c cols IH]; simpl.
  - split; auto.
  - destruct (String.eqb c name) eqn:E.
    + apply String.eqb_eq in E. split; [discriminate|]. intros H; exfalso; auto.
    + apply String.eqb_neq in E.
      destruct (index_of name cols); simpl.
      * split; [discriminate|]. intros H. exfalso. apply H. right.
        apply Decidable.not_not; [|intros N; apply IH in N; discriminate].
        destruct (in_dec string_dec name cols); [left|right]; assumption.
      * split; [|reflexivity]. intros _ [H|H]; [congruence|]. now apply IH.
Qed.

Lemma has_column_In (df : DataFrame) (name : string) :
  has_column df name = true <-> In name (columns df).
Proof.
  unfold has_column. destruct (index_of name (columns df)) eqn:E.
  - split; [|reflexivity]. intros _. apply index_of_nth_error in E.
    eapply nth_error_In; eassumption.
  - apply index_of_None in E. split; [discriminate|]. intros; contradiction.
Qed.

Lemma index_of_inj (a b : string) (cols : list string) (i : nat) :
  index_of a cols = Some i -> index_of b cols = Some i -> a = b.
Proof.
  intros Ha Hb. apply index_of_nth_error in Ha, Hb. congruence.
Qed.

Lemma index_of_app_other (name extra : string) (cols : list string) :
  name <> extra -> index_of name (cols ++ [extra]) = index_of name cols.
Proof.
  intros N. induction cols as [|c cols IH]; simpl.
  - destruct (String.eqb extra name) eqn:E; [|reflexivity].
    apply String.eqb_eq in E. congruence.
  - destruct (String.eqb c name); [reflexivity|]. now rewrite IH.
Qed.

Lemma index_of_app_new (name : string) (cols : list string) :
  index_of name cols = None ->
  index_of name (cols ++ [name]) = Some (List.length cols).
Proof.
  induction cols as [|c cols IH]; simpl.
  - now rewrite String.eqb_refl.
  - destruct (String.eqb c name); [discriminate|].
    destruct (index_of name cols); simpl; [discriminate|].
    intros _. now rewrite IH.
Qed.

Lemma zip_with_length {A B C : Type} (f : A -> B -> C) (xs : list A) (ys : list B) :
  List.length xs = List.length ys ->
  List.length (zip_with f xs ys) = List.length xs.
Proof.
  revert ys; induction xs as [|x xs IH]; intros [|y ys]; simpl; try discriminate; auto.
Qed.

Lemma map_zip_with {A B C D : Type} (g : C -> D) (f : A -> B -> C) (h : A -> D)
  (P : A -> Prop) (xs : list A) (ys : list B) :
  List.length xs = List.length ys ->
  Forall P xs ->
  (forall x y, P x -> g (f x y) = h x) ->
  map g (zip_with f xs ys) = map h xs.
Proof.
  intros L F E. revert ys L.
  induction F as [|x xs Px F IH]; intros [|y ys]; simpl; try discriminate; auto.
  intros [= L]. now rewrite E, IH.
Qed.

Lemma map_zip_with_snd {A B C : Type} (g : C -> B) (f : A -> B -> C)
  (P : A -> Prop) (xs : list A) (ys : list B) :
  List.length xs = List.length ys ->
  Forall P xs ->
  (forall x y, P x -> g (f x y) = y) ->
  map g (zip_with f xs ys) = ys.
Proof.
  intros L F E. revert ys L.
  induction F as [|x xs Px F IH]; intros [|y ys]; simpl; try discriminate; auto.
  intros [= L]. now rewrite E, IH.
Qed.

Lemma Forall_zip_with {A B C : Type} (f : A -> B -> C) (P : A -> Prop) (R : C -> Prop)
  (xs : list A) (ys : list B) :
  Forall P xs ->
  (forall x y, P x -> R (f x y)) ->
  Forall R (zip_with f xs ys).
Proof.
  intros F E. revert ys.
  induction F as [|x xs Px F IH]; intros [|y ys]; simpl; constructor; auto.
Qed.

Lemma replace_nth_length (i : nat) (v : value) (row : list value) :
  List.length (replace_nth i v row) = List.length row.
Proof.
  revert i; induction row as [|c row IH]; intros [|i]; simpl; auto.
Qed.

Lemma nth_replace_nth_same (i : nat) (v : value) (row : list value) :
  (i < List.length row)%nat -> nth i (replace_nth i v row) VNaN = v.
Proof.
  revert i; induction row as [|c row IH]; intros [|i]; simpl; try lia; auto.
  intros H. apply IH. lia.
Qed.

Lemma nth_replace_nth_other (i j : nat) (v : value) (row : list value) :
  i <> j -> nth j (replace_nth i v row) VNaN = nth j row VNaN.
Proof.
  revert i j; induction row as [|c row IH]; intros [|i] [|j]; simpl; auto; try lia.
Qed.

Section StoreColumn.

Variables (df df' : DataFrame) (name : string) (vals : list value).
Hypothesis Hset : store_column df name vals = Ok df'.

Lemma store_column_vals_length : List.length vals = List.length (rows df).
Proof.
  unfold store_column in Hset.
  destruct (List.length vals =? List.length (rows df))%nat eqn:E; simpl in Hset.
  - now apply Nat.eqb_eq.
  - discriminate.
Qed.

Lemma store_column_rows_length : List.length (rows df') = List.length (rows df).
Proof.
  pose proof store_column_vals_length as L.
  unfold store_column in Hset. rewrite L, Nat.eqb_refl in Hset. simpl in Hset.
  destruct (index_of name (columns df)); injection Hset as <-; simpl;
    now apply zip_with_length.
Qed.

Lemma store_column_columns :
  columns df' = if has_column df name then columns df
                else (columns df ++ [name])%list.
Proof.
  pose proof store_column_vals_length as L.
  unfold store_column in Hset. rewrite L, Nat.eqb_refl in Hset. simpl in Hset.
  unfold has_column.
  destruct (index_of name (columns df)); injection Hset as <-; reflexivity.
Qed.

Hypothesis Hwf : well_formed df.

Lemma store_column_well_formed : well_formed df'.
Proof.
  pose proof store_column_vals_length as L. destruct Hwf as [ND RL].
  unfold store_column in Hset. rewrite L, Nat.eqb_refl in Hset. simpl in Hset.
  destruct (index_of name (columns df)) eqn:E; injection Hset as <-;
    split; simpl; auto.
  - eapply Forall_zip_with; [exact RL|]. intros row v H; simpl in *.
    now rewrite replace_nth_length.
  - apply index_of_None in E.
    apply NoDup_app; [assumption | repeat constructor; simpl; tauto |].
    intros x Hx [<-|[]]. contradiction.
  - eapply Forall_zip_with; [exact RL|]. intros row v H; simpl in *.
    rewrite !length_app, H. reflexivity.
Qed.

Lemma getitem_store_column_same : getitem df' name = Ok vals.
Proof.
  pose proof store_column_vals_length as L. destruct Hwf as [ND RL].
  unfold store_column in Hset. rewrite L, Nat.eqb_refl in Hset. simpl in Hset.
  unfold getitem.
  destruct (index_of name (columns df)) as [i|] eqn:E; injection Hset as <-; simpl.
  - rewrite E. f_equal.
    eapply map_zip_with_snd; [symmetry; exact L | exact RL |].
    intros row v H; simpl in *. apply nth_replace_nth_same.
    rewrite H. eapply index_of_lt; eassumption.
  - rewrite (index_of_app_new _ _ E). f_equal.
    eapply map_zip_with_snd; [symmetry; exact L | exact RL |].
    intros row v H; simpl in *.
    rewrite app_nth2 by lia. now rewrite H, Nat.sub_diag.
Qed.

Lemma getitem_store_column_other (c : string) :
  c <> name -> getitem df' c = getitem df c.
Proof.
  intros N.
  pose proof store_column_vals_length as L. destruct Hwf as [ND RL].
  unfold store_column in Hset. rewrite L, Nat.eqb_refl in Hset. simpl in Hset.
  unfold getitem.
  destruct (index_of name (columns df)) as [i|] eqn:E; injection Hset as <-; simpl.
  - destruct (index_of c (columns df)) as [j|] eqn:Ec; [|reflexivity]. f_equal.
    eapply map_zip_with; [symmetry; exact L | exact RL |].
    intros row v H; simpl in *. apply nth_replace_nth_other.
    intros ->. apply N. eapply index_of_inj; eassumption.
  - rewrite (index_of_app_other _ _ _ N).
    destruct (index_of c (columns df)) as [j|] eqn:Ec; [|reflexivity]. f_equal.
    eapply map_zip_with; [symmetry; exact L | exact RL |].
    intros row v H; simpl in *. apply app_nth1.
    rewrite H. eapply index_of_lt; eassumption.
Qed.

End StoreColumn.

Lemma infer_objects_length (vals : list value) :
  List.length (infer_objects vals) = List.length vals.
Proof.
  unfold infer_objects. destruct (float_column vals); [apply length_map | reflexivity].
Qed.

Lemma nth_error_infer_objects (vals : list value) (i : nat) (v : value) :
  nth_error vals i = Some v ->
  exists cell,
    nth_error (infer_objects vals) i = Some cell /\
    (cell = v \/ cell = astype_float v).
Proof.
  intros H. unfold infer_objects. destruct (float_column vals).
  - exists (astype_float v). split; [now apply map_nth_error | now right].
  - exists v. split; [exact H | now left].
Qed.

Lemma isna_astype_float (v : value) : isna (astype_float v) = isna v.
Proof.
  destruct v; reflexivity.
Qed.

Lemma isna_count_infer_objects (vals : list value) :
  List.length (filter isna (infer_objects vals)) = List.length (filter isna vals).
Proof.
  unfold infer_objects. destruct (float_column vals); [|reflexivity].
  induction vals as [|v vals IH]; simpl; [reflexivity|].
  rewrite isna_astype_float. destruct (isna v); simpl; now rewrite IH.
Qed.

Section Setitem.

Variables (df df' : DataFrame) (name : string) (vals : list value).
Hypothesis Hset : setitem df name vals = Ok df'.

Lemma setitem_vals_length : List.length vals = List.length (rows df).
Proof.
  rewrite <- (store_column_vals_length _ _ _ _ Hset). symmetry.
  apply infer_objects_length.
Qed.

Lemma setitem_rows_length : List.length (rows df') = List.length (rows df).
Proof.
  exact (store_column_rows_length _ _ _ _ Hset).
Qed.

Lemma setitem_columns :
  columns df' = if has_column df name then columns df
                else (columns df ++ [name])%list.
Proof.
  exact (store_column_columns _ _ _ _ Hset).
Qed.

Hypothesis Hwf : well_formed df.

Lemma setitem_well_formed : well_formed df'.
Proof.
  exact (store_column_well_formed _ _ _ _ Hset Hwf).
Qed.

Lemma getitem_setitem_same : getitem df' name = Ok (infer_objects vals).
Proof.
  exact (getitem_store_column_same _ _ _ _ Hset Hwf).
Qed.

Lemma getitem_setitem_other (c : string) :
  c <> name -> getitem df' c = getitem df c.
Proof.
  exact (getitem_store_column_other _ _ _ _ Hset Hwf c).
Qed.

End Setitem.

Lemma setitem_total (df : DataFrame) (name : string) (vals : list value) :
  List.length vals = List.length (rows df) ->
  exists df', setitem df name vals = Ok df'.
Proof.
  intros L. unfold setitem, store_column.
  rewrite infer_objects_length, L, Nat.eqb_refl. simpl.
  destruct (index_of name (columns df)); eexists; reflexivity.
Qed.

(** ** The batch loop *)

Section BatchLoop.

Context {World : Type}.
Variable post : payload -> World -> post_outcome * World.
Variable cols : list string.

Lemma replies_length (bodies : list payload) (w : World) :
  List.length (replies post bodies w) = List.length bodies.
Proof.
  revert w; induction bodies as [|b bodies IH]; intros w; simpl; [reflexivity|].
  destruct (serialisable b); [|simpl; now rewrite IH].
  destruct (post b w) as [o w']. simpl. now rewrite IH.
Qed.

(** Every run of the loop is described by the answers of the service:
    it ends normally when each pass does, having appended that pass's
    cells, and it ends with the exception of the first pass that
    raises, after posting the rows up to that one. *)
Lemma score_rows_spec (todo : list (list value)) :
  forall (preds probs : list value) (s : session),
    let bodies := map (to_dict cols) todo in
    match score_rows post cols todo preds probs s with
    | (Ok (ps, qs), s') =>
        exists cells,
          Forall2 (fun o c => score_reply o = Ok c)
                  (replies post bodies (world s)) cells /\
          ps = (preds ++ map fst cells)%list /\
          qs = (probs ++ map snd cells)%list /\
          posted s' = (posted s ++ bodies)%list /\
          shown s' = shown s
    | (Raise e, s') =>
        exists k o,
          nth_error (replies post bodies (world s)) k = Some o /\
          score_reply o = Raise e /\
          posted s' = (posted s ++ firstn (S k) bodies)%list /\
          shown s' = shown s
    end.
Proof.
  induction todo as [|row todo IH]; intros preds probs s; simpl.
  - exists []. simpl. rewrite !app_nil_r. repeat split; constructor.
  - unfold bind at 1. unfold requests_post.
    destruct (serialisable (to_dict cols row)) eqn:Eser.
    2:{ exists O, (PostRaised InvalidJSONError). simpl. auto. }
    destruct (post (to_dict cols row) (world s)) as [o w] eqn:Epost.
    destruct o as [resp|e].
    + destruct (ok resp) eqn:Eok.
      * unfold bind at 1, lift at 1.
        destruct (json resp) as [out|e] eqn:Ejson.
        2:{ exists O, (Responded resp). simpl.
            rewrite Eok, Ejson. auto. }
        unfold bind at 1, lift at 1.
        destruct (subscript out "will_buy_after_price_increase") as [pred|e] eqn:E1.
        2:{ exists O, (Responded resp). simpl.
            rewrite Eok, Ejson, E1. auto. }
        unfold bind at 1, lift at 1.
        destruct (subscript out "probability") as [prob|e] eqn:E2.
        2:{ exists O, (Responded resp). simpl.
            rewrite Eok, Ejson, E1, E2. auto. }
        specialize (IH (preds ++ [pred])%list (probs ++ [prob])%list
                       (mkSession w (posted s ++ [to_dict cols row]) (shown s))).
        simpl in IH.
        destruct (score_rows post cols todo _ _ _) as [[[ps qs]|e] s'].
        -- destruct IH as (cells & F & -> & -> & Hp & Hs).
           exists ((pred, prob) :: cells). simpl.
           rewrite <- !app_assoc in *. simpl in *.
           repeat split; auto.
           constructor; [|assumption]. simpl. now rewrite Eok, Ejson, E1, E2.
        -- destruct IH as (k & o & Hn & Hr & Hp & Hs).
           exists (S k), o. rewrite <- app_assoc in Hp. auto.
      * specialize (IH (preds ++ [VNone])%list (probs ++ [VNone])%list
                       (mkSession w (posted s ++ [to_dict cols row]) (shown s))).
        simpl in IH.
        destruct (score_rows post cols todo _ _ _) as [[[ps qs]|e] s'].
        -- destruct IH as (cells & F & -> & -> & Hp & Hs).
           exists ((VNone, VNone) :: cells). simpl.
           rewrite <- !app_assoc in *. simpl in *.
           repeat split; auto.
           constructor; [|assumption]. simpl. now rewrite Eok.
        -- destruct IH as (k & o & Hn & Hr & Hp & Hs).
           exists (S k), o. rewrite <- app_assoc in Hp. auto.
    + exists O, (PostRaised e). simpl. auto.
Qed.

End BatchLoop.

(** The loop ends at the first pass that raises. *)
Section FirstException.

Context {World : Type}.
Variable post : payload -> World -> post_outcome * World.
Variable cols : list string.

Lemma score_rows_stops (todo : list (list value)) :
  forall (preds probs : list value) (s : session) (k : nat)
         (o : post_outcome) (e : exn),
    nth_error (replies post (map (to_dict cols) todo) (world s)) k = Some o ->
    score_reply o = Raise e ->
    Forall answered (firstn k (replies post (map (to_dict cols) todo) (world s))) ->
    exists s',
      score_rows post cols todo preds probs s = (Raise e, s') /\
      posted s' = (posted s ++ firstn (S k) (map (to_dict cols) todo))%list /\
      shown s' = shown s.
Proof.
  induction todo as [|row todo IH]; intros preds probs s k o e Hn Hr Ha.
  - destruct k; discriminate.
  - simpl in Hn, Ha. cbn [score_rows map]. unfold bind at 1, requests_post.
    destruct (serialisable (to_dict cols row)) eqn:Eser.
    2:{ destruct k as [|k].
        - simpl in Hn. injection Hn as <-. simpl in Hr. injection Hr as <-.
          eexists. simpl. auto.
        - cbn [firstn] in Ha. apply Forall_cons_iff in Ha.
          destruct Ha as [[] _]. }
    destruct (post (to_dict cols row) (world s)) as [o1 w1] eqn:Epost.
    destruct k as [|k].
    + simpl in Hn. injection Hn as ->.
      destruct o as [resp|e1]; simpl in Hr.
      * destruct (ok resp) eqn:Eok; [|discriminate].
        unfold bind, lift.
        destruct (json resp) as [out|e1].
        2:{ injection Hr as ->. eexists. simpl. auto. }
        destruct (subscript out "will_buy_after_price_increase") as [pred|e1].
        2:{ injection Hr as ->. eexists. simpl. auto. }
        destruct (subscript out "probability") as [prob|e1]; [discriminate|].
        injection Hr as ->. eexists. simpl. auto.
      * injection Hr as ->. eexists. simpl. auto.
    + simpl in Hn. cbn [firstn] in Ha.
      apply Forall_cons_iff in Ha. destruct Ha as [Ha1 Ha].
      destruct o1 as [resp|e1]; [|contradiction]. simpl in Ha1.
      destruct (ok resp) eqn:Eok.
      * destruct (Ha1 eq_refl) as (out & pred & prob & E0 & E1 & E2).
        unfold bind at 1 2 3, lift. rewrite E0, E1, E2.
        destruct (IH (preds ++ [pred])%list (probs ++ [prob])%list
                     (mkSession w1 (posted s ++ [to_dict cols row])%list (shown s))
                     k o e Hn Hr Ha) as (s' & Hrun & Hp & Hs).
        exists s'. simpl in Hp, Hs. rewrite <- app_assoc in Hp. auto.
      * destruct (IH (preds ++ [VNone])%list (probs ++ [VNone])%list
                     (mkSession w1 (posted s ++ [to_dict cols row])%list (shown s))
                     k o e Hn Hr Ha) as (s' & Hrun & Hp & Hs).
        exists s'. simpl in Hp, Hs. rewrite <- app_assoc in Hp. auto.
Qed.

End FirstException.

Lemma answered_iff (o : post_outcome) :
  answered o <-> exists c, score_reply o = Ok c.
Proof.
  destruct o as [resp|e]; simpl.
  - destruct (ok resp).
    + split.
      * intros H. destruct (H eq_refl) as (out & pred & prob & E0 & E1 & E2).
        rewrite E0, E1, E2. eexists; reflexivity.
      * intros [c H] _. destruct (json resp) as [out|]; [|discriminate].
        destruct (subscript out "will_buy_after_price_increase") as [pred|] eqn:E1;
          [|discriminate].
        destruct (subscript out "probability") as [prob|] eqn:E2; [|discriminate].
        exists out, pred, prob. auto.
    + split; [intros _; eexists; reflexivity | intros _; discriminate].
  - split; [contradiction | intros [c H]; discriminate].
Qed.

Lemma Forall2_nth_error_l {A B : Type} (R : A -> B -> Prop) (xs : list A) (ys : list B) :
  Forall2 R xs ys ->
  forall i x, nth_error xs i = Some x ->
              exists y, nth_error ys i = Some y /\ R x y.
Proof.
  induction 1 as [|x' y' xs ys Hxy F IH]; intros [|i] x; simpl; try discriminate.
  - intros [= <-]. eauto.
  - apply IH.
Qed.

Lemma iterrows_length (df : DataFrame) :
  List.length (iterrows df) = List.length (rows df).
Proof.
  unfold iterrows. destruct (float_frame df); [apply length_map | reflexivity].
Qed.

Lemma nth_error_iterrows (df : DataFrame) (i : nat) (row : list value) :
  nth_error (rows df) i = Some row ->
  exists handed,
    nth_error (iterrows df) i = Some handed /\
    (handed = row \/ handed = map astype_float row).
Proof.
  intros H. unfold iterrows. destruct (float_frame df).
  - exists (map astype_float row). split; [now apply map_nth_error | now right].
  - exists row. split; [exact H | now left].
Qed.

Lemma bodies_of_length (df : DataFrame) :
  List.length (bodies_of df) = List.length (rows df).
Proof.
  unfold bodies_of. rewrite length_map. apply iterrows_length.
Qed.

Section RunBatch.

Context {World : Type}.
Variable post : payload -> World -> post_outcome * World.

Lemma run_batch_spec (df : DataFrame) (s : session) :
  well_formed df ->
  match run_batch post df s with
  | (Ok df', s') =>
      exists cells,
        Forall2 (fun o c => score_reply o = Ok c)
                (replies post (bodies_of df) (world s)) cells /\
        getitem df' "Prediction" = Ok (infer_objects (map fst cells)) /\
        getitem df' "Probability" = Ok (infer_objects (map snd cells)) /\
        List.length (rows df') = List.length (rows df) /\
        (forall c, c <> "Prediction" -> c <> "Probability" ->
                   getitem df' c = getitem df c) /\
        posted s' = (posted s ++ bodies_of df)%list /\
        shown s' = shown s /\
        exists df1,
          setitem df "Prediction" (map fst cells) = Ok df1 /\
          setitem df1 "Probability" (map snd cells) = Ok df'
  | (Raise e, s') =>
      exists k o,
        nth_error (replies post (bodies_of df) (world s)) k = Some o /\
        score_reply o = Raise e /\
        posted s' = (posted s ++ firstn (S k) (bodies_of df))%list /\
        shown s' = shown s
  end.
Proof.
  intros Hwf. unfold run_batch, bind at 1.
  pose proof (score_rows_spec post (columns df) (iterrows df) [] [] s) as H.
  simpl in H. fold (bodies_of df) in H.
  destruct (score_rows post (columns df) (iterrows df) [] [] s) as [[[ps qs]|e] s'];
    [|exact H].
  destruct H as (cells & F & -> & -> & Hp & Hs). simpl.
  assert (L : List.length cells = List.length (rows df)).
  { apply Forall2_length in F. rewrite <- F, replies_length.
    apply bodies_of_length. }
  destruct (setitem_total df "Prediction" (map fst cells)) as [df1 E1];
    [now rewrite length_map|].
  pose proof (setitem_rows_length _ _ _ _ E1) as L1.
  destruct (setitem_total df1 "Probability" (map snd cells)) as [df2 E2];
    [now rewrite length_map, L1|].
  unfold bind, lift. rewrite E1, E2.
  pose proof (setitem_well_formed _ _ _ _ E1 Hwf) as Hwf1.
  exists cells. repeat split; auto.
  - rewrite (getitem_setitem_other _ _ _ _ E2 Hwf1) by discriminate.
    exact (getitem_setitem_same _ _ _ _ E1 Hwf).
  - exact (getitem_setitem_same _ _ _ _ E2 Hwf1).
  - rewrite (setitem_rows_length _ _ _ _ E2). exact L1.
  - intros c N1 N2.
    rewrite (getitem_setitem_other _ _ _ _ E2 Hwf1) by exact N2.
    exact (getitem_setitem_other _ _ _ _ E1 Hwf c N1).
  - exists df1. auto.
Qed.

(** The run ends normally exactly when every call is answered. *)
Lemma run_batch_returns (df : DataFrame) (s : session) :
  well_formed df ->
  Forall answered (replies post (bodies_of df) (world s)) ->
  exists df' s', run_batch post df s = (Ok df', s').
Proof.
  intros Hwf Ha. pose proof (run_batch_spec df s Hwf) as H.
  destruct (run_batch post df s) as [[df'|e] s']; [eauto|].
  destruct H as (k & o & Hn & Hr & _).
  apply nth_error_In in Hn. rewrite Forall_forall in Ha.
  apply Ha, answered_iff in Hn. destruct Hn as [c Hc]. congruence.
Qed.

End RunBatch.

Lemma score_reply_cells (resp : Response) (c : value * value) :
  score_reply (Responded resp) = Ok c ->
  (ok resp = false -> c = (VNone, VNone)) /\
  (ok resp = true ->
   exists out,
     json resp = Ok out /\
     subscript out "will_buy_after_price_increase" = Ok (fst c) /\
     subscript out "probability" = Ok (snd c)).
Proof.
  simpl. destruct (ok resp).
  - destruct (json resp) as [out|]; [|discriminate].
    destruct (subscript out "will_buy_after_price_increase") as [pred|] eqn:E1;
      [|discriminate].
    destruct (subscript out "probability") as [prob|] eqn:E2; [|discriminate].
    intros [= <-]. split; [discriminate|]. intros _. exists out. auto.
  - intros [= <-]. split; [reflexivity | discriminate].
Qed.

Lemma nth_error_zip_with {A B C : Type} (f : A -> B -> C) (xs : list A) (ys : list B)
  (i : nat) (x : A) (y : B) :
  nth_error xs i = Some x -> nth_error ys i = Some y ->
  nth_error (zip_with f xs ys) i = Some (f x y).
Proof.
  revert ys i; induction xs as [|x' xs IH]; intros [|y' ys] [|i]; simpl;
    try discriminate.
  - now intros [= ->] [= ->].
  - apply IH.
Qed.

Lemma setitem_fresh (df df' : DataFrame) (name : string) (vals : list value) :
  has_column df name = false ->
  setitem df name vals = Ok df' ->
  df' = mkDF (columns df ++ [name])
             (zip_with (fun row v => (row ++ [v])%list) (rows df)
                       (infer_objects vals)).
Proof.
  unfold has_column, setitem, store_column.
  destruct (negb _); [discriminate|].
  destruct (index_of name (columns df)); [discriminate|].
  now intros _ [= <-].
Qed.

(** ** What the modes post and show *)

Ltac split_match :=
  repeat match goal with
         | |- context [match ?x with _ => _ end] => destruct x eqn:?; simpl
         end.

Lemma In_firstn {A : Type} (x : A) (k : nat) (l : list A) :
  In x (firstn k l) -> In x l.
Proof.
  revert l; induction k as [|k IH]; intros [|y l]; simpl; try contradiction.
  intros [H|H]; [left | right]; auto.
Qed.

Lemma keys_to_dict (cols : list string) (row : list value) :
  List.length row = List.length cols -> keys (to_dict cols row) = cols.
Proof.
  unfold keys, to_dict. revert cols.
  induction row as [|v row IH]; intros [|c cols]; simpl; try discriminate; auto.
  intros [= L]. f_equal. now apply IH.
Qed.

Section Modes.

Context {World : Type}.
Variable post : payload -> World -> post_outcome * World.

Lemma firstn_bodies_keys (df : DataFrame) (k : nat) :
  well_formed df ->
  Forall (fun b => keys b = columns df) (firstn k (bodies_of df)).
Proof.
  intros [_ RL]. apply Forall_forall. intros b Hb.
  apply In_firstn in Hb. unfold bodies_of in Hb.
  apply in_map_iff in Hb. destruct Hb as (row & <- & Hrow).
  apply keys_to_dict. unfold iterrows in Hrow.
  rewrite Forall_forall in RL.
  destruct (float_frame df); [|now apply RL].
  apply in_map_iff in Hrow. destruct Hrow as (row0 & <- & Hrow0).
  rewrite length_map. now apply RL.
Qed.

(** Whatever the outcome, the run has posted an initial stretch of the
    rows, the first of them included, and has rendered nothing. *)
Lemma run_batch_session (df : DataFrame) (s : session) :
  exists k,
    posted (snd (run_batch post df s)) = (posted s ++ firstn k (bodies_of df))%list /\
    (rows df <> [] -> (1 <= k)%nat) /\
    shown (snd (run_batch post df s)) = shown s.
Proof.
  unfold run_batch, bind, lift.
  pose proof (score_rows_spec post (columns df) (iterrows df) [] [] s) as H.
  simpl in H. fold (bodies_of df) in H.
  destruct (score_rows post (columns df) (iterrows df) [] [] s) as [[[ps qs]|e] s'].
  - destruct H as (cells & _ & _ & _ & Hp & Hs).
    exists (List.length (bodies_of df)). rewrite firstn_all.
    assert (Hk : rows df <> [] -> (1 <= List.length (bodies_of df))%nat).
    { rewrite bodies_of_length.
      destruct (rows df); [congruence | simpl; lia]. }
    destruct (setitem df "Prediction" ps) as [df1|]; simpl; auto.
  - destruct H as (k & o & _ & _ & Hp & Hs).
    exists (S k). simpl. repeat split; auto. intros _; lia.
Qed.

Lemma single_prediction_posted (f : form) (s : session) :
  posted (snd (single_prediction post f s)) =
  (posted s ++ if predict_pressed f then [single_payload f] else [])%list.
Proof.
  unfold single_prediction, bind, show, requests_post, lift, ret. simpl.
  destruct (predict_pressed f); simpl; [|now rewrite app_nil_r].
  destruct (post (single_payload f) (world s)) as [[resp|e] w']; simpl;
    [|reflexivity].
  split_match; reflexivity.
Qed.

End Modes.

(** ** Number fields *)

Lemma number_input_accepts {A : Type} (leb : A -> A -> bool)
  (lo hi : option A) (v x : A) :
  within leb lo hi x = true -> number_input leb lo hi v (Some x) = x.
Proof.
  intros H. unfold number_input. now rewrite H.
Qed.

Lemma number_input_within {A : Type} (leb : A -> A -> bool)
  (lo hi : option A) (entry : option A) (v : A) :
  within leb lo hi v = true ->
  within leb lo hi (number_input leb lo hi v entry) = true.
Proof.
  intros Hv. unfold number_input. destruct entry as [x|]; [|exact Hv].
  destruct (within leb lo hi x) eqn:E; assumption.
Qed.

Lemma within_Q_range (lo hi x : Q) :
  within Qle_bool (Some lo) (Some hi) x = true <-> (lo <= x <= hi)%Q.
Proof.
  unfold within. rewrite andb_true_iff, !Qle_bool_iff. tauto.
Qed.

Lemma within_Q_min (lo x : Q) :
  within Qle_bool (Some lo) None x = true <-> (lo <= x)%Q.
Proof.
  unfold within. rewrite andb_true_r. apply Qle_bool_iff.
Qed.

Lemma within_Z_min (lo x : Z) :
  within Z.leb (Some lo) None x = true <-> lo <= x.
Proof.
  unfold within. rewrite andb_true_r. apply Z.leb_le.
Qed.

(** ** Means and tallies *)





Section Weights.

Variable P : value -> bool.
Hypothesis P_compat : forall k v, py_eq k v = true -> P k = P v.







End Weights.




Lemma tally_all_dropna (col : list value) :
  tally_all col = tally_all (dropna col).
Proof.
  unfold tally_all. generalize (@nil (value * nat)).
  induction col as [|v col IH]; intros acc; simpl; [reflexivity|].
  destruct (isna v) eqn:E; simpl; [apply IH|].
  rewrite E. apply IH.
Qed.

Lemma nansum_dropna (col : list value) :
  forall total count, nansum col total count = nansum (dropna col) total count.
Proof.
  induction col as [|v col IH]; intros total count; simpl; [reflexivity|].
  destruct (isna v) eqn:E; simpl; [apply IH|].
  rewrite E. destruct (as_number v); [apply IH | reflexivity].
Qed.

Lemma numbers_cons (v : value) (col : list value) :
  numbers (v :: col)
  = match as_number v with Some x => x :: numbers col | None => numbers col end.
Proof.
  unfold numbers. simpl. destruct (as_number v); reflexivity.
Qed.

Lemma nansum_numeric (col : list value) :
  Forall numeric_or_missing col ->
  forall total count,
    exists total',
      nansum col total count = Ok (total', (count + List.length (dropna col))%nat) /\
      (total' == total + sumQ (numbers col))%Q.
Proof.
  induction 1 as [|v col Hv F IH]; intros total count.
  - simpl. exists total. rewrite Nat.add_0_r. split; [reflexivity|].
    unfold sumQ; simpl. ring.
  - rewrite (numbers_cons v col). unfold dropna. cbn [nansum filter].
    fold (dropna col). destruct (isna v) eqn:E; cbn [negb].
    + destruct (IH total count) as (t & Ht & Hq). exists t. split; [exact Ht|].
      destruct v; try discriminate; exact Hq.
    + destruct Hv as [Hv|[x Hx]]; [congruence|]. rewrite Hx.
      destruct (IH (total + x)%Q (S count)) as (t & Ht & Hq).
      exists t. split.
      * rewrite Ht. do 2 f_equal. simpl. lia.
      * rewrite Hq. unfold sumQ. simpl. ring.
Qed.






(** ** The analytics mode *)

Lemma issubset_both (df : DataFrame) :
  issubset ["Prediction"; "Probability"] df = true <->
  In "Prediction" (columns df) /\ In "Probability" (columns df).
Proof.
  unfold issubset. simpl. rewrite !andb_true_iff, !has_column_In. tauto.
Qed.

Lemma getitem_present (df : DataFrame) (name : string) :
  In name (columns df) -> exists col, getitem df name = Ok col.
Proof.
  intros H. apply has_column_In in H. unfold has_column, getitem in *.
  destruct (index_of name (columns df)); [eauto | discriminate].
Qed.

Lemma mean_numeric (col : list value) :
  Forall numeric_or_missing col -> exists m, mean col = Ok m.
Proof.
  intros F. unfold mean.
  destruct (nansum_numeric col F 0%Q 0%nat) as (t & -> & _).
  destruct (0 + List.length (dropna col))%nat; eauto.
Qed.

Lemma nansum_text (col : list value) :
  Exists (fun v => exists t, v = VStr t) col ->
  forall total count, nansum col total count = Raise TypeError.
Proof.
  induction col as [|v col IH]; intros H total count.
  - inversion H.
  - simpl. destruct (isna v) eqn:Ena.
    + apply IH. inversion H as [? ? [t ->]|]; [discriminate | assumption].
    + destruct (as_number v) as [x|] eqn:Ex; [|reflexivity].
      apply IH. inversion H as [? ? [t ->]|]; [discriminate | assumption].
Qed.

Lemma mean_text (col : list value) :
  Exists (fun v => exists t, v = VStr t) col -> mean col = Raise TypeError.
Proof.
  intros H. unfold mean. now rewrite nansum_text.
Qed.

Section Summary.

Context {World : Type}.

(** The summary renders the preview first and never an error box, and
    posts nothing. *)
Lemma summarize_session (df : DataFrame) (s : session (World := World)) :
  posted (snd (summarize df s)) = posted s /\
  exists events,
    shown (snd (summarize df s))
    = (shown s ++ st_write (Some "Preview:") (head df) :: events)%list /\
    Forall (fun e => forall msg, e <> st_error msg) events.
Proof.
  unfold summarize, bind, show, lift. simpl.
  destruct (getitem df "Prediction") as [prediction|]; simpl.
  2:{ split; [reflexivity|]. exists []. split; [reflexivity | constructor]. }
  destruct (mean prediction) as [m|]; simpl.
  2:{ split; [reflexivity|]. exists []. split; [reflexivity | constructor]. }
  destruct (getitem df "Probability") as [probability|]; simpl;
    (split; [reflexivity|]); eexists;
    (split; [rewrite <- !app_assoc; simpl; reflexivity|]);
    repeat constructor; discriminate.
Qed.

(** With both columns read and no text among the predictions, the
    whole summary is rendered. *)
Lemma summarize_complete (df : DataFrame) (prediction probability : list value)
  (s : session (World := World)) :
  getitem df "Prediction" = Ok prediction ->
  getitem df "Probability" = Ok probability ->
  Forall numeric_or_missing prediction ->
  exists m,
    mean prediction = Ok m /\
    summarize df s
    = (Ok tt,
       mkSession (world s) (posted s)
         (shown s ++
          [st_write (Some "Preview:") (head df);
           st_metric "Share predicted to continue buying"
                     (format_pct (option_map (fun q => (q * 100)%Q) m));
           st_subheader "Probability distribution";
           st_pyplot probability 20 "Probability of continuing" "Frequency";
           st_subheader "Segment counts";
           st_bar_chart (rename segment_names (value_counts prediction))])).
Proof.
  intros Hp Hq F. destruct (mean_numeric prediction F) as [m Hm].
  exists m. split; [exact Hm|].
  unfold summarize, bind, show, lift. simpl.
  rewrite Hp, Hm, Hq. simpl. rewrite <- !app_assoc. reflexivity.
Qed.

End Summary.

(** ** Batch scoring: partial failures and row order *)

(** C1, as stated, fails on a transport failure: when the second of three
    requests times out, the exception ends the run, no table is produced
    and the third record is never posted. *)
Lemma timeout_aborts_batch :
  exists s',
    run_batch drops_second three_rows (fresh 0%nat) = (Raise Timeout, s') /\
    posted s' = firstn 2 (bodies_of three_rows).
Proof.
  eexists. split; reflexivity.
Qed.

(** C1, as amended.  When every request is answered with a response (no
    exception in the call) and every response that counts as a success
    carries both members, a batch of N records yields a table of N rows,
    every record is posted, and the Prediction and Probability cells are
    absent ([None] or NaN) at each position whose response has a failure
    status, while a position with a success status holds the members of
    its response, as they are or cast to float. *)
Theorem batch_tolerates_error_status {World : Type}
  (post : payload -> World -> post_outcome * World)
  (df : DataFrame) (w : World) :
  well_formed df ->
  Forall answered (replies post (bodies_of df) w) ->
  exists df' s' preds probs,
    run_batch post df (fresh w) = (Ok df', s') /\
    List.length (rows df') = List.length (rows df) /\
    posted s' = bodies_of df /\
    getitem df' "Prediction" = Ok preds /\
    getitem df' "Probability" = Ok probs /\
    List.length preds = List.length (rows df) /\
    List.length probs = List.length (rows df) /\
    forall i resp,
      nth_error (replies post (bodies_of df) w) i = Some (Responded resp) ->
      (ok resp = false ->
       exists p q,
         nth_error preds i = Some p /\ nth_error probs i = Some q /\
         (p = VNone \/ p = VNaN) /\ (q = VNone \/ q = VNaN) /\
         isna p = true /\ isna q = true) /\
      (ok resp = true ->
       exists out pred prob p q,
         json resp = Ok out /\
         subscript out "will_buy_after_price_increase" = Ok pred /\
         subscript out "probability" = Ok prob /\
         nth_error preds i = Some p /\ nth_error probs i = Some q /\
         stored_as pred p /\ stored_as prob q).
Proof.
  intros Hwf Ha.
  destruct (run_batch_returns post df (fresh w) Hwf Ha) as (df' & s' & E).
  pose proof (run_batch_spec post df (fresh w) Hwf) as H. rewrite E in H.
  destruct H as (cells & F & Gp & Gq & L & _ & Hp & _). simpl in *.
  assert (Lc : List.length cells = List.length (rows df)).
  { apply Forall2_length in F. rewrite <- F, replies_length.
    apply bodies_of_length. }
  exists df', s', (infer_objects (map fst cells)), (infer_objects (map snd cells)).
  do 7 (split; [solve [auto | now rewrite infer_objects_length, length_map]|]).
  intros i resp H.
  destruct (Forall2_nth_error_l _ _ _ F i _ H) as (c & Hc & Hr).
  apply score_reply_cells in Hr. destruct Hr as [Hfail Hsucc].
  destruct (nth_error_infer_objects _ i _ (map_nth_error fst _ _ Hc))
    as (p & Hp' & Hpc).
  destruct (nth_error_infer_objects _ i _ (map_nth_error snd _ _ Hc))
    as (q & Hq' & Hqc).
  split; intros Hok.
  - rewrite (Hfail Hok) in Hpc, Hqc. simpl in Hpc, Hqc.
    exists p, q. repeat split; auto;
      [destruct Hpc as [->| ->] | destruct Hqc as [->| ->]]; reflexivity.
  - destruct (Hsucc Hok) as (out & E0 & E1 & E2).
    exists out, (fst c), (snd c), p, q. unfold stored_as. auto 10.
Qed.

Lemma three_rows_well_formed : well_formed three_rows.
Proof.
  split.
  - repeat constructor; simpl; intuition discriminate.
  - repeat constructor.
Qed.

Lemma flaky_answered :
  Forall answered (replies flaky (bodies_of three_rows) 0%nat).
Proof.
  repeat constructor; simpl; intros _;
    exists good_body, (VBool true), (VFloat (8 # 10)); auto.
Qed.

Lemma batch_tolerates_error_status_witness :
  exists df' s' preds probs,
    run_batch flaky three_rows (fresh 0%nat) = (Ok df', s') /\
    List.length (rows df') = 3%nat /\
    getitem df' "Prediction" = Ok preds /\
    getitem df' "Probability" = Ok probs /\
    exists p q,
      nth_error preds 1 = Some p /\ nth_error probs 1 = Some q /\
      isna p = true /\ isna q = true.
Proof.
  destruct (batch_tolerates_error_status flaky three_rows 0%nat
              three_rows_well_formed flaky_answered)
    as (df' & s' & preds & probs & E & L & _ & Gp & Gq & _ & _ & H).
  exists df', s', preds, probs.
  destruct (H 1%nat (mkResponse 500 "Internal Server Error" (Some good_body))
              eq_refl) as [Hfail _].
  destruct (Hfail eq_refl) as (p & q & Hp & Hq & _ & _ & Np & Nq).
  repeat split; try assumption. exists p, q. auto.
Defined.

(** C2.  The run returns a table whenever every request is answered, and
    every table it returns has one row per input row, keeps each input
    column cell for cell in the input order, and holds at index i of the
    Prediction and Probability columns the two cells read off the
    service's answer to the body of row i, as they are or cast to float
    by the column assignment.  When the input has neither column, each
    output row is the input row followed by these two cells. *)
Theorem scored_rows_follow_input {World : Type}
  (post : payload -> World -> post_outcome * World)
  (df : DataFrame) (w : World) :
  well_formed df ->
  (Forall answered (replies post (bodies_of df) w) ->
   exists df' s', run_batch post df (fresh w) = (Ok df', s')) /\
  forall df' s',
    run_batch post df (fresh w) = (Ok df', s') ->
    List.length (rows df') = List.length (rows df) /\
    (forall c, c <> "Prediction" -> c <> "Probability" ->
               getitem df' c = getitem df c) /\
    exists preds probs,
      getitem df' "Prediction" = Ok preds /\
      getitem df' "Probability" = Ok probs /\
      (forall i row,
         nth_error (rows df) i = Some row ->
         exists handed o pred prob p q,
           nth_error (iterrows df) i = Some handed /\
           (handed = row \/ handed = map astype_float row) /\
           nth_error (bodies_of df) i = Some (to_dict (columns df) handed) /\
           nth_error (replies post (bodies_of df) w) i = Some o /\
           score_reply o = Ok (pred, prob) /\
           nth_error preds i = Some p /\
           nth_error probs i = Some q /\
           stored_as pred p /\
           stored_as prob q /\
           (has_column df "Prediction" = false ->
            has_column df "Probability" = false ->
            nth_error (rows df') i = Some (row ++ [p; q])%list)) /\
      (has_column df "Prediction" = false ->
       has_column df "Probability" = false ->
       columns df' = (columns df ++ ["Prediction"; "Probability"])%list).
Proof.
  intros Hwf. split; [intros Ha; now apply (run_batch_returns post df (fresh w))|].
  intros df' s' E.
  pose proof (run_batch_spec post df (fresh w) Hwf) as H. rewrite E in H.
  destruct H as (cells & F & Gp & Gq & L & Hc & _ & _ & df1 & E1 & E2).
  simpl in F.
  assert (Hfresh :
            has_column df "Prediction" = false ->
            has_column df "Probability" = false ->
            df' = mkDF ((columns df ++ ["Prediction"]) ++ ["Probability"])
                       (zip_with (fun row v => (row ++ [v])%list)
                          (zip_with (fun row v => (row ++ [v])%list) (rows df)
                                    (infer_objects (map fst cells)))
                          (infer_objects (map snd cells)))).
  { intros N1 N2.
    pose proof (setitem_fresh _ _ _ _ N1 E1) as D1. subst df1.
    apply (setitem_fresh _ _ _ _) in E2; [exact E2|].
    unfold has_column in *. simpl.
    rewrite index_of_app_other by discriminate. exact N2. }
  split; [exact L|]. split; [exact Hc|].
  exists (infer_objects (map fst cells)), (infer_objects (map snd cells)).
  split; [exact Gp|]. split; [exact Gq|]. split.
  - intros i row Hrow.
    destruct (nth_error_iterrows df i row Hrow) as (handed & Hh & Hcast).
    assert (Hb : nth_error (bodies_of df) i = Some (to_dict (columns df) handed)).
    { unfold bodies_of. now apply map_nth_error. }
    destruct (nth_error (replies post (bodies_of df) w) i) as [o|] eqn:Ho.
    2:{ apply nth_error_None in Ho. rewrite replies_length in Ho.
        apply nth_error_None in Ho. congruence. }
    destruct (Forall2_nth_error_l _ _ _ F i o Ho) as ([pred prob] & Hcell & Hr).
    destruct (nth_error_infer_objects _ i _ (map_nth_error fst _ _ Hcell))
      as (p & Hp & Hpc).
    destruct (nth_error_infer_objects _ i _ (map_nth_error snd _ _ Hcell))
      as (q & Hq & Hqc).
    simpl in Hpc, Hqc.
    exists handed, o, pred, prob, p, q.
    do 9 (split; [solve [auto]|]).
    intros N1 N2. rewrite (Hfresh N1 N2). simpl.
    erewrite nth_error_zip_with;
      [| eapply nth_error_zip_with; eassumption | eassumption].
    now rewrite <- app_assoc.
  - intros N1 N2. rewrite (Hfresh N1 N2). simpl. now rewrite <- app_assoc.
Qed.

Lemma scored_rows_follow_input_witness :
  exists df' s' probs,
    run_batch flaky three_rows (fresh 0%nat) = (Ok df', s') /\
    List.length (rows df') = List.length (rows three_rows) /\
    getitem df' "total_spent" = getitem three_rows "total_spent" /\
    getitem df' "Probability" = Ok probs /\
    nth_error probs 0 = Some (VFloat (8 # 10)).
Proof.
  destruct (scored_rows_follow_input flaky three_rows 0%nat
              three_rows_well_formed) as [Hret Hrows].
  destruct (Hret flaky_answered) as (df' & s' & E).
  destruct (Hrows df' s' E) as (L & Hc & preds & probs & _ & Gq & Hcells & _).
  destruct (Hcells 0%nat [VFloat 100; VStr "economy"] eq_refl)
    as (handed & o & pred & prob & p & q & _ & _ & _ & Ho & Hr & _ & Hq & _ & Hsq & _).
  simpl in Ho. injection Ho as <-. simpl in Hr. injection Hr as <- <-.
  exists df', s', probs.
  split; [exact E|]. split; [exact L|].
  split; [apply Hc; discriminate|]. split; [exact Gq|].
  destruct Hsq as [->| ->]; exact Hq.
Defined.

(** ** Batch mode: no check of the columns *)

(** C3, as stated, fails: a sheet with eight of the nine columns raises
    no error; its row is sent to the service with the eight keys and the
    run ends normally. *)
Lemma eight_columns_are_posted :
  fst (batch_prediction (always 200) writes_workbook (Some (Ok eight_columns))
                        true (fresh 0%nat))
    = Ok tt /\
  sent (posted (snd (batch_prediction (always 200) writes_workbook
                                      (Some (Ok eight_columns)) true
                                      (fresh 0%nat))))
    = [to_dict (removelast nine_keys) (removelast nine_cells)] /\
  ~ In "cabin_class" (columns eight_columns).
Proof.
  repeat split; try reflexivity.
  simpl. intuition discriminate.
Qed.

(** C3, as amended.  The batch mode does not look at the columns of the
    uploaded sheet and shows no error message of its own.  Whichever
    columns the table read from the file has, pressing the run button
    calls the service with the body of the first row: when that body can
    be serialised it is the first request sent, and when it cannot (an
    empty cell) the run ends with InvalidJSONError and nothing is sent.
    A file that cannot be read ends the run before any call. *)
Theorem batch_posts_without_column_check {World : Type}
  (post : payload -> World -> post_outcome * World)
  (to_excel : DataFrame -> result string)
  (df : DataFrame) (w : World) (body : payload) (others : list payload) :
  bodies_of df = body :: others ->
  (serialisable body = true ->
   exists more,
     sent (posted (snd (batch_prediction post to_excel (Some (Ok df)) true
                                         (fresh w))))
     = body :: more) /\
  (serialisable body = false ->
   fst (batch_prediction post to_excel (Some (Ok df)) true (fresh w))
   = Raise InvalidJSONError /\
   posted (snd (batch_prediction post to_excel (Some (Ok df)) true (fresh w)))
   = [body] /\
   sent (posted (snd (batch_prediction post to_excel (Some (Ok df)) true
                                       (fresh w))))
   = []) /\
  (forall msg,
     ~ In (st_error msg)
          (shown (snd (batch_prediction post to_excel (Some (Ok df)) true
                                        (fresh w))))) /\
  (forall e pressed,
     batch_prediction post to_excel (Some (Raise e)) pressed (fresh w)
     = (Raise e, mkSession w [] [st_header "Batch Prediction – Upload Excel"])).
Proof.
  intros Hbodies.
  assert (Hrows : rows df <> []).
  { intros E. pose proof (bodies_of_length df) as L.
    rewrite Hbodies, E in L. discriminate. }
  split; [|split; [|split; [|reflexivity]]].
  - intros Hser.
    unfold batch_prediction, bind, show, lift, fresh. simpl.
    match goal with
    | |- context [run_batch post df ?s0] =>
        destruct (run_batch_session post df s0) as (k & Hp & Hk & Hs);
        destruct (run_batch post df s0) as [[df'|e] s']
    end; simpl in *.
    all: assert (Hk1 : (1 <= k)%nat) by (apply Hk; exact Hrows).
    all: assert (Hfirst : exists more, sent (posted s') = body :: more)
      by (rewrite Hp, Hbodies; destruct k as [|k]; [lia|];
          simpl; rewrite Hser; eauto).
    + destruct (to_excel df'); simpl; exact Hfirst.
    + exact Hfirst.
  - intros Hser.
    unfold batch_prediction, run_batch, bind, show, lift, fresh. simpl.
    match goal with
    | |- context [score_rows post (columns df) (iterrows df) [] [] ?s0] =>
        destruct (score_rows_stops post (columns df) (iterrows df) [] [] s0
                    0%nat (PostRaised InvalidJSONError) InvalidJSONError)
          as (s' & -> & Hp & Hs)
    end.
    + fold (bodies_of df). rewrite Hbodies. simpl. now rewrite Hser.
    + reflexivity.
    + constructor.
    + simpl in *. fold (bodies_of df) in Hp. rewrite Hbodies in Hp. simpl in Hp.
      rewrite Hp. simpl. rewrite Hser. auto.
  - intros msg.
    unfold batch_prediction, bind, show, lift, fresh. simpl.
    match goal with
    | |- context [run_batch post df ?s0] =>
        destruct (run_batch_session post df s0) as (k & Hp & Hk & Hs);
        destruct (run_batch post df s0) as [[df'|e] s']
    end; simpl in *.
    + destruct (to_excel df'); simpl; rewrite Hs; simpl; intuition discriminate.
    + rewrite Hs. simpl. intuition discriminate.
Qed.

Lemma batch_posts_without_column_check_witness :
  (exists more,
     sent (posted (snd (batch_prediction (always 200) writes_workbook
                                         (Some (Ok eight_columns)) true
                                         (fresh 0%nat))))
     = to_dict (columns eight_columns) (removelast nine_cells) :: more) /\
  fst (batch_prediction (always 200) writes_workbook
                        (Some (Ok sheet_with_empty_cell)) true (fresh 0%nat))
  = Raise InvalidJSONError.
Proof.
  split.
  - exact (proj1 (batch_posts_without_column_check (always 200) writes_workbook
                    eight_columns 0%nat _ [] eq_refl) eq_refl).
  - exact (proj1 (proj1 (proj2 (batch_posts_without_column_check
                                  (always 200) writes_workbook
                                  sheet_with_empty_cell 0%nat _ _ eq_refl))
                        eq_refl)).
Defined.

(** ** The keys of a request body *)

(** C8, as stated, fails in the batch mode: the body posted for a row has
    the columns of the sheet as its keys, ten of them for a sheet with an
    extra column and eight for a sheet that lacks one. *)
Lemma batch_body_follows_sheet :
  map keys (posted (snd (run_batch (always 200) ten_columns (fresh 0%nat))))
    = [(nine_keys ++ ["customer_id"])%list] /\
  map keys (posted (snd (run_batch (always 200) eight_columns (fresh 0%nat))))
    = [removelast nine_keys] /\
  (nine_keys ++ ["customer_id"])%list <> nine_keys /\
  removelast nine_keys <> nine_keys.
Proof.
  repeat split; try reflexivity; discriminate.
Qed.

(** C8, as amended.  The single-prediction mode posts one body when the
    button is pressed, with exactly the nine keys, and none otherwise.
    In the batch mode the keys of every posted body are the columns of
    the uploaded sheet, in their order: they are the nine keys exactly
    when the sheet has exactly those columns. *)
Theorem request_body_keys {World : Type}
  (post : payload -> World -> post_outcome * World)
  (to_excel : DataFrame -> result string) (w : World) :
  (forall f,
     predict_pressed f = true ->
     map keys (posted (snd (single_prediction post f (fresh w)))) = [nine_keys]) /\
  (forall f,
     predict_pressed f = false ->
     posted (snd (single_prediction post f (fresh w))) = []) /\
  (forall df pressed,
     well_formed df ->
     Forall (fun b => keys b = columns df)
            (posted (snd (batch_prediction post to_excel (Some (Ok df)) pressed
                                           (fresh w))))).
Proof.
  split; [|split].
  - intros f H. rewrite single_prediction_posted, H. reflexivity.
  - intros f H. rewrite single_prediction_posted, H. reflexivity.
  - intros df pressed Hwf.
    unfold batch_prediction, bind, show, lift, fresh, ret. simpl.
    destruct pressed; simpl; [|constructor].
    match goal with
    | |- context [run_batch post df ?s0] =>
        destruct (run_batch_session post df s0) as (k & Hp & _ & _);
        destruct (run_batch post df s0) as [[df'|e] s']
    end; simpl in *.
    + destruct (to_excel df'); simpl; rewrite Hp; now apply firstn_bodies_keys.
    + rewrite Hp. now apply firstn_bodies_keys.
Qed.

Lemma request_body_keys_witness :
  map keys (posted (snd (single_prediction (always 200) untouched_form
                                           (fresh 0%nat)))) = [nine_keys] /\
  Forall (fun b => keys b = columns three_rows)
         (posted (snd (batch_prediction flaky writes_workbook
                                        (Some (Ok three_rows)) true
                                        (fresh 0%nat)))).
Proof.
  split.
  - exact (proj1 (request_body_keys (always 200) writes_workbook 0%nat)
                 untouched_form eq_refl).
  - exact (proj2 (proj2 (request_body_keys flaky writes_workbook 0%nat))
                 three_rows true three_rows_well_formed).
Defined.

(** ** When a response counts as a success *)

(** C4.  The claim asks for one success test, "a 2xx status", in both
    modes.  On a response with status 201 and a well-formed body the two
    modes part: the single-prediction mode reports "API error 201" while
    the batch loop scores the response; the batch loop also scores a
    response with status 302. *)
Lemma created_status_splits_modes :
  shown (snd (single_prediction (always 201) untouched_form (fresh 0%nat)))
    = [st_header "Single-customer Prediction";
       st_error "API error 201: body text"] /\
  fst (score_rows (always 201) ["total_spent"] [[VFloat 100]] [] [] (fresh 0%nat))
    = Ok ([VBool true], [VFloat (8 # 10)]) /\
  fst (score_rows (always 302) ["total_spent"] [[VFloat 100]] [] [] (fresh 0%nat))
    = Ok ([VBool true], [VFloat (8 # 10)]).
Proof.
  repeat split; reflexivity.
Qed.

(** ** The single-prediction form *)

(** C9, as stated, fails: typing 1.01 into the discount field and
    pressing the button neither raises an error nor holds the request
    back.  The request is sent, with the discount at the default 0.2,
    and the answer is rendered. *)
Lemma overshoot_is_posted_with_default :
  sent (posted (snd (single_prediction (always 200) overshoot_form (fresh 0%nat))))
    = [single_payload untouched_form] /\
  assoc "discount_behavior" (single_payload overshoot_form)
    = Some (VFloat (2 # 10)) /\
  exists rendered,
    single_prediction (always 200) overshoot_form (fresh 0%nat)
    = (Ok tt,
       mkSession 1%nat [single_payload untouched_form]
         [st_header "Single-customer Prediction"; st_markdown rendered]).
Proof.
  repeat split; try reflexivity.
  eexists. vm_compute. reflexivity.
Qed.

(** C9, as amended.  The form has no validation step and never holds a
    request back: pressing the button always sends exactly one request,
    built from the values of the widgets.  An entry of the discount field
    within 0 and 1, both ends included, is sent as entered; the discount
    sent is always within 0 and 1 and no other number sent is negative,
    so an entry outside the bounds is never sent as entered. *)
Theorem form_bounds_without_validation {World : Type}
  (post : payload -> World -> post_outcome * World) (f : form) (w : World) :
  ((0 <= discount_behavior f <= 1)%Q /\
   (0 <= total_spent f)%Q /\
   (0 <= avg_order_value f)%Q /\
   (0 <= avg_purchase_frequency f)%Q /\
   0 <= days_since_last_purchase f /\
   0 <= days_in_advance f) /\
  (forall x,
     discount_behavior_entry f = Some x ->
     ((0 <= x <= 1)%Q -> discount_behavior f = x) /\
     (~ (0 <= x <= 1)%Q -> ~ (discount_behavior f == x)%Q)) /\
  (predict_pressed f = true ->
   posted (snd (single_prediction post f (fresh w))) = [single_payload f] /\
   sent (posted (snd (single_prediction post f (fresh w)))) = [single_payload f]).
Proof.
  assert (Hd : (0 <= discount_behavior f <= 1)%Q)
    by (apply (within_Q_range 0 1), number_input_within; reflexivity).
  split; [|split].
  - split; [exact Hd|]. repeat split.
    1-3: apply within_Q_min, number_input_within; reflexivity.
    1,2: apply within_Z_min, number_input_within; reflexivity.
  - intros x E. split; intros H.
    + unfold discount_behavior. rewrite E.
      apply number_input_accepts. now apply within_Q_range.
    + intros Heq. apply H. rewrite <- Heq. exact Hd.
  - intros H. rewrite single_prediction_posted, H. simpl. split; reflexivity.
Qed.

Lemma form_bounds_without_validation_witness :
  discount_behavior zero_form = 0%Q /\
  discount_behavior boundary_form = 1%Q /\
  sent (posted (snd (single_prediction (always 200) boundary_form (fresh 0%nat))))
    = [single_payload boundary_form].
Proof.
  pose proof (form_bounds_without_validation (always 200) boundary_form 0%nat)
    as (_ & Hentry & Hposted).
  pose proof (form_bounds_without_validation (always 200) zero_form 0%nat)
    as (_ & Hzero & _).
  split; [|split].
  - apply (Hzero 0%Q eq_refl). split; discriminate.
  - apply (Hentry 1%Q eq_refl). split; discriminate.
  - apply Hposted. reflexivity.
Defined.

(** ** The summary of a scored sheet *)

(** C5.  For a sheet whose Prediction column is 1, 1, 0, 1, written as
    integers or as booleans, with no missing cell, the mean is 3/4, the
    metric reads 75.00%, and the bar chart has 3 under "Continue", the
    cells equal to 1, and 1 under "Stop", the cells equal to 0. *)
Theorem summary_of_1101 {World : Type} (df : DataFrame)
  (prediction probability : list value) (s : session (World := World)) :
  prediction = [VInt 1; VInt 1; VInt 0; VInt 1] \/
  prediction = [VBool true; VBool true; VBool false; VBool true] ->
  getitem df "Prediction" = Ok prediction ->
  getitem df "Probability" = Ok probability ->
  mean prediction = Ok (Some (3 # 4)%Q) /\
  summarize df s
  = (Ok tt,
     mkSession (world s) (posted s)
       (shown s ++
        [st_write (Some "Preview:") (head df);
         st_metric "Share predicted to continue buying" "75.00%";
         st_subheader "Probability distribution";
         st_pyplot probability 20 "Probability of continuing" "Frequency";
         st_subheader "Segment counts";
         st_bar_chart [(VStr "Continue", 3%nat); (VStr "Stop", 1%nat)]])) /\
  bar "Continue" (rename segment_names (value_counts prediction)) = 3%nat /\
  bar "Stop" (rename segment_names (value_counts prediction)) = 1%nat /\
  List.length (filter counts_as_continue prediction) = 3%nat /\
  List.length (filter counts_as_stop prediction) = 1%nat.
Proof.
  intros Hcol Hp Hq.
  assert (Hsum : summarize df s
                 = (Ok tt,
                    mkSession (world s) (posted s)
                      (shown s ++
                       [st_write (Some "Preview:") (head df);
                        st_metric "Share predicted to continue buying" "75.00%";
                        st_subheader "Probability distribution";
                        st_pyplot probability 20 "Probability of continuing"
                                  "Frequency";
                        st_subheader "Segment counts";
                        st_bar_chart [(VStr "Continue", 3%nat);
                                      (VStr "Stop", 1%nat)]]))).
  { unfold summarize, bind, show, lift. simpl. rewrite Hp, Hq.
    destruct Hcol as [-> | ->]; simpl; rewrite <- !app_assoc; reflexivity. }
  destruct Hcol as [-> | ->]; repeat split; solve [reflexivity | exact Hsum].
Qed.

Lemma summary_of_1101_witness :
  summarize sheet_1101 (fresh 0%nat)
  = (Ok tt,
     mkSession 0%nat []
       [st_write (Some "Preview:") (head sheet_1101);
        st_metric "Share predicted to continue buying" "75.00%";
        st_subheader "Probability distribution";
        st_pyplot [VFloat (9 # 10); VFloat (7 # 10); VFloat (2 # 10); VFloat (6 # 10)]
                  20 "Probability of continuing" "Frequency";
        st_subheader "Segment counts";
        st_bar_chart [(VStr "Continue", 3%nat); (VStr "Stop", 1%nat)]]).
Proof.
  exact (proj1 (proj2 (summary_of_1101 sheet_1101 _ _ (fresh 0%nat)
                         (or_introl eq_refl) eq_refl eq_refl))).
Defined.

(** C6, as stated, fails: a sheet with both columns and a text cell
    among the predictions shows no schema error, yet no summary is
    computed; the run ends with TypeError after the preview. *)
Lemma text_prediction_aborts_summary :
  In "Prediction" (columns sheet_with_text) /\
  In "Probability" (columns sheet_with_text) /\
  visual_analytics (Some (Ok sheet_with_text)) (fresh 0%nat)
  = (Raise TypeError,
     mkSession 0%nat []
       [st_header "Visual Analytics – Explore existing predictions";
        st_write (Some "Preview:") (head sheet_with_text)]).
Proof.
  repeat split; simpl; auto.
Qed.

(** C6, as amended.  The analytics mode shows the error about the two
    columns, and nothing else, exactly when the sheet lacks the
    Prediction or the Probability column.  When both are there no such
    error is shown and the summary starts with the preview; it then
    renders the metric, the histogram and the bar chart when no
    prediction cell is text, and ends with TypeError right after the
    preview when one is. *)
Theorem schema_error_iff_column_missing {World : Type} (df : DataFrame) (w : World) :
  (In (st_error schema_message)
      (shown (snd (visual_analytics (Some (Ok df)) (fresh w))))
   <-> ~ (In "Prediction" (columns df) /\ In "Probability" (columns df))) /\
  (~ (In "Prediction" (columns df) /\ In "Probability" (columns df)) ->
   visual_analytics (Some (Ok df)) (fresh w)
   = (Ok tt,
      mkSession w []
        [st_header "Visual Analytics – Explore existing predictions";
         st_error schema_message])) /\
  (In "Prediction" (columns df) /\ In "Probability" (columns df) ->
   exists prediction probability,
     getitem df "Prediction" = Ok prediction /\
     getitem df "Probability" = Ok probability /\
     (exists events,
        shown (snd (visual_analytics (Some (Ok df)) (fresh w)))
        = st_header "Visual Analytics – Explore existing predictions"
          :: st_write (Some "Preview:") (head df) :: events) /\
     (Forall numeric_or_missing prediction ->
      exists share,
        visual_analytics (Some (Ok df)) (fresh w)
        = (Ok tt,
           mkSession w []
             [st_header "Visual Analytics – Explore existing predictions";
              st_write (Some "Preview:") (head df);
              st_metric "Share predicted to continue buying" share;
              st_subheader "Probability distribution";
              st_pyplot probability 20 "Probability of continuing" "Frequency";
              st_subheader "Segment counts";
              st_bar_chart (rename segment_names (value_counts prediction))])) /\
     (Exists (fun v => exists t, v = VStr t) prediction ->
      visual_analytics (Some (Ok df)) (fresh w)
      = (Raise TypeError,
         mkSession w []
           [st_header "Visual Analytics – Explore existing predictions";
            st_write (Some "Preview:") (head df)]))).
Proof.
  pose proof (issubset_both df) as Hboth.
  unfold visual_analytics, bind, show, lift, fresh.
  cbn -[issubset summarize].
  destruct (issubset ["Prediction"; "Probability"] df) eqn:E.
  - assert (B : In "Prediction" (columns df) /\ In "Probability" (columns df))
      by now apply Hboth.
    match goal with
    | |- context [summarize df ?s0] =>
        destruct (summarize_session df s0) as (_ & events & Hs & Hne); set (s1 := s0) in *
    end.
    split; [|split].
    + split; [|intros N; contradiction].
      rewrite Hs. simpl. intros [H|[H|H]]; try discriminate.
      rewrite Forall_forall in Hne. exfalso. exact (Hne _ H schema_message eq_refl).
    + intros N; contradiction.
    + intros _. destruct B as [Bp Bq].
      destruct (getitem_present df _ Bp) as [prediction Hp].
      destruct (getitem_present df _ Bq) as [probability Hq].
      exists prediction, probability.
      split; [exact Hp|]. split; [exact Hq|]. split; [|split].
      * exists events. rewrite Hs. reflexivity.
      * intros F.
        destruct (summarize_complete df prediction probability s1 Hp Hq F)
          as (m & Hm & Hsum).
        eexists. rewrite Hsum. reflexivity.
      * intros Htext. subst s1.
        unfold summarize, bind, show, lift. simpl.
        rewrite Hp, (mean_text prediction Htext). reflexivity.
  - assert (B : ~ (In "Prediction" (columns df) /\ In "Probability" (columns df))).
    { intros B. apply Hboth in B. discriminate. }
    split; [|split].
    + split; [intros _; exact B|]. intros _. simpl. auto.
    + intros _. reflexivity.
    + intros B'. contradiction.
Qed.

Lemma schema_error_iff_column_missing_witness :
  visual_analytics (Some (Ok three_rows)) (fresh 0%nat)
  = (Ok tt,
     mkSession 0%nat []
       [st_header "Visual Analytics – Explore existing predictions";
        st_error schema_message]).
Proof.
  apply (proj1 (proj2 (schema_error_iff_column_missing three_rows 0%nat))).
  simpl. intuition discriminate.
Defined.

(** ** Absent predictions in the summary *)




(** ** Further properties of the three modes *)

(** X1.  The analytics mode makes no network call and leaves the service
    untouched, whatever is uploaded, also when it is reached through the
    menu; a file that cannot be read ends the run after the header. *)
Theorem visual_analytics_posts_nothing {World : Type}
  (post : payload -> World -> post_outcome * World)
  (to_excel : DataFrame -> result string)
  (uploaded : option (result DataFrame)) (s : session (World := World)) :
  posted (snd (visual_analytics uploaded s)) = posted s /\
  world (snd (visual_analytics uploaded s)) = world s /\
  (forall f run_pressed,
     posted (snd (main post to_excel (Some 2%nat) f uploaded run_pressed s))
     = posted s) /\
  (forall e,
     visual_analytics (Some (Raise e)) s
     = (Raise e,
        mkSession (world s) (posted s)
          (shown s ++ [st_header "Visual Analytics – Explore existing predictions"]))).
Proof.
  assert (H : forall s0 : session (World := World),
             posted (snd (visual_analytics uploaded s0)) = posted s0 /\
             world (snd (visual_analytics uploaded s0)) = world s0).
  { intros s0. unfold visual_analytics, bind, show, lift, ret.
    cbn -[issubset summarize].
    destruct uploaded as [[df|e]|]; cbn -[issubset summarize]; auto.
    destruct (issubset ["Prediction"; "Probability"] df); [|simpl; auto].
    unfold summarize, bind, show, lift. simpl.
    destruct (getitem df "Prediction") as [prediction|]; simpl; auto.
    destruct (mean prediction) as [m|]; simpl; auto.
    destruct (getitem df "Probability") as [probability|]; simpl; auto. }
  split; [apply H|]. split; [apply H|]. split; [|reflexivity].
  intros f run_pressed. unfold main, bind, show. simpl.
  match goal with
  | |- context [visual_analytics uploaded ?s0] => destruct (H s0) as [Hp _]
  end.
  exact Hp.
Qed.

(** X2.  The single-prediction mode catches nothing.  When the button is
    pressed and the call raises, or the response has status 200 but its
    body is not JSON, lacks one of the two members or carries a
    probability that cannot be formatted as a percentage, the run ends
    with that exception: the request has been posted once and nothing but
    the header is shown, neither a result nor an error box. *)
Theorem single_prediction_uncaught {World : Type}
  (post : payload -> World -> post_outcome * World)
  (f : form) (w w' : World) (e : exn) :
  predict_pressed f = true ->
  let aborted :=
    (@Raise unit e,
     mkSession w' [single_payload f] [st_header "Single-customer Prediction"]) in
  (post (single_payload f) w = (PostRaised e, w') ->
   single_prediction post f (fresh w) = aborted) /\
  (forall resp,
     post (single_payload f) w = (Responded resp, w') ->
     status_code resp = 200 ->
     (json resp = Raise e -> single_prediction post f (fresh w) = aborted) /\
     (forall out,
        json resp = Ok out ->
        (subscript out "will_buy_after_price_increase" = Raise e ->
         single_prediction post f (fresh w) = aborted) /\
        (forall will_buy,
           subscript out "will_buy_after_price_increase" = Ok will_buy ->
           (subscript out "probability" = Raise e ->
            single_prediction post f (fresh w) = aborted) /\
           (forall prob,
              subscript out "probability" = Ok prob ->
              format_percent1 prob = Raise e ->
              single_prediction post f (fresh w) = aborted)))).
Proof.
  intros Hpressed aborted. subst aborted.
  unfold single_prediction, bind, show, requests_post, lift, fresh. simpl.
  rewrite Hpressed. simpl. split.
  - intros ->. reflexivity.
  - intros resp -> Hstatus. apply Z.eqb_eq in Hstatus. rewrite Hstatus.
    split; [intros ->; reflexivity|].
    intros out ->. split; [intros ->; reflexivity|].
    intros will_buy ->. split; [intros ->; reflexivity|].
    intros prob -> ->. reflexivity.
Qed.

Lemma single_prediction_uncaught_witness :
  single_prediction garbled untouched_form (fresh 0%nat)
  = (Raise JSONDecodeError,
     mkSession 1%nat [single_payload untouched_form]
       [st_header "Single-customer Prediction"]).
Proof.
  destruct (single_prediction_uncaught garbled untouched_form 0%nat 1%nat
              JSONDecodeError eq_refl) as [_ H].
  destruct (H (mkResponse 200 "<html>Bad gateway</html>" None) eq_refl eq_refl)
    as [Hjson _].
  exact (Hjson eq_refl).
Defined.

(** X3.  The batch mode posts each row at most once and in sheet order:
    what it has posted is always an initial stretch of the rows' bodies.
    It posts nothing while the run button is not pressed, showing only
    the header and the five-row preview, and nothing at all is read or
    posted while no file is uploaded. *)
Theorem batch_posts_rows_in_order_once {World : Type}
  (post : payload -> World -> post_outcome * World)
  (to_excel : DataFrame -> result string)
  (df : DataFrame) (w : World) :
  (forall run_pressed,
     exists k,
       (k <= List.length (rows df))%nat /\
       posted (snd (batch_prediction post to_excel (Some (Ok df)) run_pressed
                                     (fresh w)))
       = firstn k (bodies_of df)) /\
  batch_prediction post to_excel (Some (Ok df)) false (fresh w)
  = (Ok tt,
     mkSession w []
       [st_header "Batch Prediction – Upload Excel";
        st_write (Some "Preview of uploaded data:") (head df)]) /\
  (forall run_pressed,
     batch_prediction post to_excel None run_pressed (fresh w)
     = (Ok tt, mkSession w [] [st_header "Batch Prediction – Upload Excel"])).
Proof.
  split; [|split; reflexivity].
  intros run_pressed.
  unfold batch_prediction, bind, show, lift, fresh, ret. simpl.
  destruct run_pressed; simpl; [|exists 0%nat; split; [lia | reflexivity]].
  assert (L : List.length (bodies_of df) = List.length (rows df))
    by apply bodies_of_length.
  match goal with
  | |- context [run_batch post df ?s0] =>
      destruct (run_batch_session post df s0) as (k & Hp & _ & _);
      destruct (run_batch post df s0) as [[df'|e] s']
  end; simpl in *; [destruct (to_excel df'); simpl|].
  all: destruct (Nat.le_gt_cases k (List.length (rows df))) as [Hk|Hk];
    [exists k; split; [exact Hk | exact Hp]|].
  all: exists (List.length (rows df)); split; [lia|].
  all: rewrite Hp, <- L, firstn_all; apply firstn_all2; lia.
Qed.

(** X4.  A sheet without data rows is scored without any network call:
    the run returns at once, leaves the session as it was, and the table
    it returns has no row, every column of the sheet and the two result
    columns. *)
Theorem run_batch_on_empty_sheet {World : Type}
  (post : payload -> World -> post_outcome * World)
  (df : DataFrame) (s : session) :
  rows df = [] ->
  exists df',
    run_batch post df s = (Ok df', s) /\
    rows df' = [] /\
    In "Prediction" (columns df') /\
    In "Probability" (columns df') /\
    (forall c, In c (columns df) -> In c (columns df')).
Proof.
  intros Hrows.
  assert (Hit : iterrows df = []).
  { unfold iterrows, float_frame. rewrite Hrows. reflexivity. }
  unfold run_batch, bind, lift, ret. rewrite Hit. simpl.
  unfold setitem, store_column. rewrite Hrows. simpl.
  destruct (index_of "Prediction" (columns df)) as [i|] eqn:E1; simpl.
  - apply index_of_nth_error, nth_error_In in E1.
    destruct (index_of "Probability" (columns df)) as [j|] eqn:E2;
      [apply index_of_nth_error, nth_error_In in E2|];
      (eexists; split; [reflexivity|]); simpl;
      repeat split; rewrite ?in_app_iff; simpl; auto;
      intros c Hc; rewrite ?in_app_iff; auto.
  - rewrite (index_of_app_other "Probability" "Prediction") by discriminate.
    destruct (index_of "Probability" (columns df)) as [j|] eqn:E2;
      [apply index_of_nth_error, nth_error_In in E2|];
      (eexists; split; [reflexivity|]); simpl;
      repeat split; rewrite ?in_app_iff; simpl; auto 6;
      intros c Hc; rewrite ?in_app_iff; auto.
Qed.

Lemma run_batch_on_empty_sheet_witness :
  exists df',
    run_batch offline empty_sheet (fresh 0%nat) = (Ok df', fresh 0%nat) /\
    rows df' = [] /\
    In "Prediction" (columns df') /\
    In "Probability" (columns df') /\
    (forall c, In c (columns empty_sheet) -> In c (columns df')).
Proof.
  exact (run_batch_on_empty_sheet offline empty_sheet (fresh 0%nat) eq_refl).
Defined.

(** X5.  The batch run stops at the first request that raises, or whose
    success response cannot be read: when the first k requests are
    answered and request k ends in an exception, the run ends with that
    exception having posted rows 0 to k only; the rows after are never
    posted and the cells already scored are lost, the mode showing no
    success message, no result table and no download button. *)
Theorem batch_stops_at_first_exception {World : Type}
  (post : payload -> World -> post_outcome * World)
  (to_excel : DataFrame -> result string)
  (df : DataFrame) (w : World) (k : nat) (o : post_outcome) (e : exn) :
  nth_error (replies post (bodies_of df) w) k = Some o ->
  score_reply o = Raise e ->
  Forall answered (firstn k (replies post (bodies_of df) w)) ->
  exists w',
    batch_prediction post to_excel (Some (Ok df)) true (fresh w)
    = (Raise e,
       mkSession w' (firstn (S k) (bodies_of df))
         [st_header "Batch Prediction – Upload Excel";
          st_write (Some "Preview of uploaded data:") (head df)]).
Proof.
  intros Hn Hr Ha.
  unfold batch_prediction, bind at 1 2 3, show, lift, fresh. simpl.
  unfold bind at 1, run_batch, bind at 1.
  match goal with
  | |- context [score_rows post (columns df) (iterrows df) [] [] ?s0] =>
      destruct (score_rows_stops post (columns df) (iterrows df) [] [] s0 k o e
                  Hn Hr Ha) as (s' & -> & Hp & Hs)
  end.
  simpl in Hp, Hs. exists (world s'). destruct s' as [w' p' sh']. simpl in *.
  now subst.
Qed.

Lemma batch_stops_at_first_exception_witness :
  exists w',
    batch_prediction drops_second writes_workbook (Some (Ok three_rows)) true
                     (fresh 0%nat)
    = (Raise Timeout,
       mkSession w' (firstn 2 (bodies_of three_rows))
         [st_header "Batch Prediction – Upload Excel";
          st_write (Some "Preview of uploaded data:") (head three_rows)]).
Proof.
  apply (batch_stops_at_first_exception drops_second writes_workbook
           three_rows 0%nat 1%nat
           (PostRaised Timeout) Timeout eq_refl eq_refl).
  repeat constructor. simpl. intros _.
  exists good_body, (VBool true), (VFloat (8 # 10)). auto.
Defined.

(** X6.  After a batch run in which every request is answered, the table
    returned by the run, whose Prediction and Probability columns are
    read off the answers, is shown by its first five rows and handed
    whole to the workbook writer.  When the writer succeeds, its bytes
    are offered for download as predictions.xlsx; when it raises, the
    run ends with that exception after the success note and the table,
    without a download button. *)
Theorem batch_download_is_whole_table {World : Type}
  (post : payload -> World -> post_outcome * World)
  (to_excel : DataFrame -> result string)
  (df : DataFrame) (w : World) :
  well_formed df ->
  Forall answered (replies post (bodies_of df) w) ->
  exists df' s1 cells,
    run_batch post df
      (mkSession w []
         [st_header "Batch Prediction – Upload Excel";
          st_write (Some "Preview of uploaded data:") (head df)])
    = (Ok df', s1) /\
    Forall2 (fun o c => score_reply o = Ok c)
            (replies post (bodies_of df) w) cells /\
    getitem df' "Prediction" = Ok (infer_objects (map fst cells)) /\
    getitem df' "Probability" = Ok (infer_objects (map snd cells)) /\
    List.length (rows df') = List.length (rows df) /\
    (List.length (rows (head df')) <= 5)%nat /\
    (forall bytes,
       to_excel df' = Ok bytes ->
       batch_prediction post to_excel (Some (Ok df)) true (fresh w)
       = (Ok tt,
          mkSession (world s1) (bodies_of df)
            [st_header "Batch Prediction – Upload Excel";
             st_write (Some "Preview of uploaded data:") (head df);
             st_success "Batch prediction complete.";
             st_write None (head df');
             st_download_button "Download results as Excel" bytes
                                "predictions.xlsx" xlsx_mime])) /\
    (forall e,
       to_excel df' = Raise e ->
       batch_prediction post to_excel (Some (Ok df)) true (fresh w)
       = (Raise e,
          mkSession (world s1) (bodies_of df)
            [st_header "Batch Prediction – Upload Excel";
             st_write (Some "Preview of uploaded data:") (head df);
             st_success "Batch prediction complete.";
             st_write None (head df')])).
Proof.
  intros Hwf Ha.
  assert (Hhead : forall d : DataFrame, (List.length (rows (head d)) <= 5)%nat)
    by (intros d; apply firstn_le_length).
  unfold batch_prediction, bind, show, lift, fresh. simpl.
  match goal with
  | |- context [run_batch post df ?s0] =>
      destruct (run_batch_returns post df s0 Hwf Ha) as (df' & s' & E);
      pose proof (run_batch_spec post df s0 Hwf) as H
  end.
  rewrite E in H. destruct H as (cells & F & Gp & Gq & L & _ & Hp & Hs & _).
  simpl in F, Hp, Hs.
  exists df', s', cells. rewrite E.
  destruct s' as [w' p' sh']. simpl in *. subst p' sh'.
  do 5 (split; [solve [auto]|]). split; [exact (Hhead df')|].
  split; intros x ->; reflexivity.
Qed.

Lemma batch_download_is_whole_table_witness :
  exists df' s1 cells,
    run_batch flaky three_rows
      (mkSession 0%nat []
         [st_header "Batch Prediction – Upload Excel";
          st_write (Some "Preview of uploaded data:") (head three_rows)])
    = (Ok df', s1) /\
    Forall2 (fun o c => score_reply o = Ok c)
            (replies flaky (bodies_of three_rows) 0%nat) cells /\
    getitem df' "Prediction" = Ok (infer_objects (map fst cells)) /\
    getitem df' "Probability" = Ok (infer_objects (map snd cells)) /\
    List.length (rows df') = List.length (rows three_rows) /\
    (List.length (rows (head df')) <= 5)%nat /\
    (forall bytes,
       refuses_workbook df' = Ok bytes ->
       batch_prediction flaky refuses_workbook (Some (Ok three_rows)) true
                        (fresh 0%nat)
       = (Ok tt,
          mkSession (world s1) (bodies_of three_rows)
            [st_header "Batch Prediction – Upload Excel";
             st_write (Some "Preview of uploaded data:") (head three_rows);
             st_success "Batch prediction complete.";
             st_write None (head df');
             st_download_button "Download results as Excel" bytes
                                "predictions.xlsx" xlsx_mime])) /\
    (forall e,
       refuses_workbook df' = Raise e ->
       batch_prediction flaky refuses_workbook (Some (Ok three_rows)) true
                        (fresh 0%nat)
       = (Raise e,
          mkSession (world s1) (bodies_of three_rows)
            [st_header "Batch Prediction – Upload Excel";
             st_write (Some "Preview of uploaded data:") (head three_rows);
             st_success "Batch prediction complete.";
             st_write None (head df')])).
Proof.
  exact (batch_download_is_whole_table flaky refuses_workbook three_rows 0%nat
           three_rows_well_formed flaky_answered).
Defined.

Lemma assoc_combine (c : string) (cols : list string) (row : list value) (j : nat) :
  index_of c cols = Some j ->
  (j < List.length row)%nat ->
  assoc c (combine cols row) = Some (nth j row VNaN).
Proof.
  revert row j. induction cols as [|c' cols IH]; intros row j; simpl;
    [discriminate|].
  destruct row as [|v row]; simpl; [lia|].
  destruct (String.eqb c' c).
  - intros [= <-] _. reflexivity.
  - destruct (index_of c cols) as [j'|]; simpl; [|discriminate].
    intros [= <-] Hlt. simpl. apply IH; [reflexivity | lia].
Qed.

Lemma body_lookup (df : DataFrame) (i : nat) (row : list value)
  (c : string) (col : list value) :
  well_formed df ->
  nth_error (rows df) i = Some row ->
  getitem df c = Ok col ->
  exists body cell,
    nth_error (bodies_of df) i = Some body /\
    nth_error col i = Some cell /\
    assoc c body = Some (if float_frame df then astype_float cell else cell).
Proof.
  intros [_ RL] Hrow Hget.
  unfold getitem in Hget.
  destruct (index_of c (columns df)) as [j|] eqn:E; [|discriminate].
  injection Hget as <-.
  rewrite Forall_forall in RL.
  pose proof (RL row (nth_error_In _ _ Hrow)) as Hlen. simpl in Hlen.
  pose proof (index_of_lt _ _ _ E) as Hj.
  exists (to_dict (columns df)
            (if float_frame df then map astype_float row else row)),
         (nth j row VNaN).
  split; [|split].
  - unfold bodies_of, iterrows. destruct (float_frame df).
    + apply map_nth_error. now apply map_nth_error.
    + now apply map_nth_error.
  - exact (map_nth_error (fun r => nth j r VNaN) _ _ Hrow).
  - unfold to_dict. destruct (float_frame df).
    + rewrite (assoc_combine c _ _ j E) by (rewrite length_map; lia).
      f_equal. change VNaN with (astype_float VNaN) at 1. apply map_nth.
    + apply assoc_combine; [exact E | lia].
Qed.

(** X7.  The body posted for a row carries the row's cells under their
    headers: for every column of a well-formed sheet, looking the header
    up in the body of row i gives the cell of that column at row i, cast
    to float when the sheet is all numeric with a float column (the
    integers of such a sheet are posted as floats) and as stored
    otherwise. *)
Theorem body_carries_row_cells (df : DataFrame) (i : nat) (row : list value)
  (c : string) (col : list value) :
  well_formed df ->
  nth_error (rows df) i = Some row ->
  getitem df c = Ok col ->
  exists body cell,
    nth_error (bodies_of df) i = Some body /\
    nth_error col i = Some cell /\
    assoc c body = Some (if float_frame df then astype_float cell else cell) /\
    (forall z, float_frame df = true -> cell = VInt z ->
               assoc c body = Some (VFloat (inject_Z z))) /\
    (float_frame df = false -> assoc c body = Some cell).
Proof.
  intros Hwf Hrow Hget.
  destruct (body_lookup df i row c col Hwf Hrow Hget) as (body & cell & Hb & Hc & Ha).
  exists body, cell. do 3 (split; [assumption|]). split.
  - intros z Hf ->. rewrite Ha, Hf. reflexivity.
  - intros Hf. rewrite Ha, Hf. reflexivity.
Qed.

Lemma sheet_with_empty_cell_well_formed : well_formed sheet_with_empty_cell.
Proof.
  split.
  - repeat constructor; simpl; intuition discriminate.
  - repeat constructor.
Qed.

Lemma body_carries_row_cells_witness :
  exists body,
    nth_error (bodies_of sheet_with_empty_cell) 1 = Some body /\
    assoc "days_in_advance" body = Some (VFloat (inject_Z 30)).
Proof.
  destruct (body_carries_row_cells sheet_with_empty_cell 1%nat
              [VFloat 120; VInt 30] "days_in_advance" _
              sheet_with_empty_cell_well_formed eq_refl eq_refl)
    as (body & cell & Hb & Hc & _ & Hint & _).
  exists body. split; [exact Hb|].
  simpl in Hc. injection Hc as <-. now apply Hint.
Defined.

(** X8.  Scoring a sheet that already has a Prediction and a Probability
    column keeps its columns as they are, in number and order.  Every
    row's body is posted with the old cells of the two columns in it, and
    the two columns are then overwritten with the cells read off the
    answers. *)
Theorem rescoring_keeps_columns {World : Type}
  (post : payload -> World -> post_outcome * World)
  (df df' : DataFrame) (s s' : session) :
  well_formed df ->
  has_column df "Prediction" = true ->
  has_column df "Probability" = true ->
  run_batch post df s = (Ok df', s') ->
  columns df' = columns df /\
  posted s' = (posted s ++ bodies_of df)%list /\
  (exists olds_p olds_q,
     getitem df "Prediction" = Ok olds_p /\
     getitem df "Probability" = Ok olds_q /\
     forall i row,
       nth_error (rows df) i = Some row ->
       exists body old_p old_q,
         nth_error (bodies_of df) i = Some body /\
         nth_error olds_p i = Some old_p /\
         nth_error olds_q i = Some old_q /\
         assoc "Prediction" body
         = Some (if float_frame df then astype_float old_p else old_p) /\
         assoc "Probability" body
         = Some (if float_frame df then astype_float old_q else old_q)) /\
  exists cells,
    Forall2 (fun o c => score_reply o = Ok c)
            (replies post (bodies_of df) (world s)) cells /\
    getitem df' "Prediction" = Ok (infer_objects (map fst cells)) /\
    getitem df' "Probability" = Ok (infer_objects (map snd cells)).
Proof.
  intros Hwf H1 H2 E.
  pose proof (run_batch_spec post df s Hwf) as H. rewrite E in H.
  destruct H as (cells & F & Gp & Gq & _ & _ & Hp & _ & df1 & E1 & E2).
  split; [|split; [exact Hp|split]].
  - pose proof (setitem_columns _ _ _ _ E1) as C1. rewrite H1 in C1.
    pose proof (setitem_columns _ _ _ _ E2) as C2.
    unfold has_column in C2 at 1. rewrite C1 in C2.
    unfold has_column in H2.
    destruct (index_of "Probability" (columns df)); [|discriminate].
    now rewrite C2.
  - apply has_column_In in H1, H2.
    destruct (getitem_present df _ H1) as [olds_p Hop].
    destruct (getitem_present df _ H2) as [olds_q Hoq].
    exists olds_p, olds_q. split; [exact Hop|]. split; [exact Hoq|].
    intros i row Hrow.
    destruct (body_lookup df i row _ _ Hwf Hrow Hop) as (b1 & p & Hb1 & Hp1 & Ha1).
    destruct (body_lookup df i row _ _ Hwf Hrow Hoq) as (b2 & q & Hb2 & Hq2 & Ha2).
    rewrite Hb1 in Hb2. injection Hb2 as <-.
    exists b1, p, q. auto.
  - exists cells. auto.
Qed.

Lemma sheet_1101_well_formed : well_formed sheet_1101.
Proof.
  split.
  - repeat constructor; simpl; intuition discriminate.
  - repeat constructor.
Qed.

Lemma rescoring_keeps_columns_witness :
  exists df' s',
    run_batch (always 200) sheet_1101 (fresh 0%nat) = (Ok df', s') /\
    columns df' = columns sheet_1101 /\
    posted s' = bodies_of sheet_1101.
Proof.
  eexists _, _. split; [reflexivity|].
  destruct (rescoring_keeps_columns (always 200) sheet_1101 _ (fresh 0%nat) _
              sheet_1101_well_formed eq_refl eq_refl eq_refl) as (Hc & Hp & _).
  split; [exact Hc | exact Hp].
Defined.

(** X9.  When the sheet has no data row, or every Prediction cell is
    missing, the analytics mode still renders: the share is shown as
    "nan%" and the segment chart has no bar. *)
Theorem summary_without_predictions {World : Type} (df : DataFrame)
  (prediction probability : list value) (s : session (World := World)) :
  getitem df "Prediction" = Ok prediction ->
  getitem df "Probability" = Ok probability ->
  dropna prediction = [] ->
  summarize df s
  = (Ok tt,
     mkSession (world s) (posted s)
       (shown s ++
        [st_write (Some "Preview:") (head df);
         st_metric "Share predicted to continue buying" "nan%";
         st_subheader "Probability distribution";
         st_pyplot probability 20 "Probability of continuing" "Frequency";
         st_subheader "Segment counts";
         st_bar_chart []])).
Proof.
  intros Hp Hq Hna.
  assert (Hm : mean prediction = Ok None).
  { unfold mean. now rewrite nansum_dropna, Hna. }
  assert (Hc : value_counts prediction = []).
  { unfold value_counts. now rewrite tally_all_dropna, Hna. }
  unfold summarize, bind, show, lift. simpl.
  rewrite Hp, Hm, Hq. simpl. rewrite Hc. simpl.
  rewrite <- !app_assoc. reflexivity.
Qed.

Lemma summary_without_predictions_witness :
  summarize (mkDF ["Prediction"; "Probability"] [[VNaN; VNaN]; [VNone; VNaN]])
            (fresh 0%nat)
  = (Ok tt,
     mkSession 0%nat []
       [st_write (Some "Preview:")
                 (head (mkDF ["Prediction"; "Probability"]
                             [[VNaN; VNaN]; [VNone; VNaN]]));
        st_metric "Share predicted to continue buying" "nan%";
        st_subheader "Probability distribution";
        st_pyplot [VNaN; VNaN] 20 "Probability of continuing" "Frequency";
        st_subheader "Segment counts";
        st_bar_chart []]).
Proof.
  exact (summary_without_predictions
           (mkDF ["Prediction"; "Probability"] [[VNaN; VNaN]; [VNone; VNaN]])
           _ _ (fresh 0%nat) eq_refl eq_refl eq_refl).
Defined.

Lemma selectbox_In {A : Type} (options : list A) (fallback : A) (pick : option nat) :
  options <> [] -> In (selectbox options fallback pick) options.
Proof.
  intros Hne. destruct options as [|x options]; [congruence|].
  unfold selectbox. destruct pick as [i|]; [|now left].
  destruct (Nat.lt_ge_cases i (List.length (x :: options))) as [Hlt|Hge].
  - now apply nth_In.
  - rewrite nth_overflow by exact Hge. now left.
Qed.

(** X10.  Whatever is picked in the form, the three choice fields of the
    posted body hold one of their options: the flight type is domestic
    or international, the cabin class is economy or business, and the
    loyalty flag is 0 or 1; an untouched form sends the first option of
    each. *)
Theorem single_payload_choices (f : form) :
  (assoc "flight_type" (single_payload f) = Some (VStr "domestic") \/
   assoc "flight_type" (single_payload f) = Some (VStr "international")) /\
  (assoc "cabin_class" (single_payload f) = Some (VStr "economy") \/
   assoc "cabin_class" (single_payload f) = Some (VStr "business")) /\
  (assoc "loyalty_program_member" (single_payload f) = Some (VInt 0) \/
   assoc "loyalty_program_member" (single_payload f) = Some (VInt 1)) /\
  (flight_type_pick f = None -> flight_type f = "domestic") /\
  (cabin_class_pick f = None -> cabin_class f = "economy") /\
  (loyalty_program_member_pick f = None -> loyalty_program_member f = 0).
Proof.
  assert (Hf : In (flight_type f) ["domestic"; "international"])
    by (apply selectbox_In; discriminate).
  assert (Hc : In (cabin_class f) ["economy"; "business"])
    by (apply selectbox_In; discriminate).
  assert (Hl : In (loyalty_program_member f) [0; 1])
    by (apply selectbox_In; discriminate).
  simpl in Hf, Hc, Hl. simpl.
  repeat split.
  - destruct Hf as [<-|[<-|[]]]; auto.
  - destruct Hc as [<-|[<-|[]]]; auto.
  - destruct Hl as [<-|[<-|[]]]; auto.
  - unfold flight_type. now intros ->.
  - unfold cabin_class. now intros ->.
  - unfold loyalty_program_member. now intros ->.
Qed.

Lemma single_payload_choices_witness :
  flight_type untouched_form = "domestic" /\
  cabin_class untouched_form = "economy" /\
  loyalty_program_member untouched_form = 0.
Proof.
  destruct (single_payload_choices untouched_form) as (_ & _ & _ & Hf & Hc & Hl).
  split; [apply Hf; reflexivity|].
  split; [apply Hc; reflexivity | apply Hl; reflexivity].
Defined.

Lemma absent_matches_failed (replied : list post_outcome)
  (cells : list (value * value)) :
  Forall2 (fun o c => score_reply o = Ok c) replied cells ->
  Forall carries_values replied ->
  List.length (filter isna (map fst cells)) = List.length (filter failed replied).
Proof.
  induction 1 as [|o c replied cells Hoc F IH]; intros Hv; [reflexivity|].
  apply Forall_cons_iff in Hv. destruct Hv as [Hv1 Hv].
  specialize (IH Hv). cbn [map filter].
  destruct o as [resp|e]; [|discriminate].
  destruct (score_reply_cells resp c Hoc) as [Hfail Hsucc].
  unfold failed at 1. destruct (ok resp) eqn:Eok; cbn [negb].
  - destruct (Hsucc eq_refl) as (out & E0 & E1 & _).
    rewrite (Hv1 resp out (fst c) eq_refl Eok E0 E1). exact IH.
  - rewrite (Hfail eq_refl). simpl. now rewrite IH.
Qed.

(** X11.  When the service never sends a null prediction with a success
    status, the number of absent cells in the Prediction column of the
    scored table is exactly the number of requests that were answered
    with a failure status. *)
Theorem absent_cells_count_failures {World : Type}
  (post : payload -> World -> post_outcome * World)
  (df df' : DataFrame) (w : World) (s' : session) (preds : list value) :
  well_formed df ->
  Forall carries_values (replies post (bodies_of df) w) ->
  run_batch post df (fresh w) = (Ok df', s') ->
  getitem df' "Prediction" = Ok preds ->
  List.length (filter isna preds)
  = List.length (filter failed (replies post (bodies_of df) w)).
Proof.
  intros Hwf Hv E Hget.
  pose proof (run_batch_spec post df (fresh w) Hwf) as H. rewrite E in H.
  destruct H as (cells & F & Gp & _). simpl in F.
  rewrite Gp in Hget. injection Hget as <-.
  rewrite isna_count_infer_objects. now apply absent_matches_failed.
Qed.

Lemma flaky_carries_values :
  Forall carries_values (replies flaky (bodies_of three_rows) 0%nat).
Proof.
  repeat constructor; intros resp out pred [= <-] Hok; simpl;
    try discriminate; intros [= <-] [= <-]; reflexivity.
Qed.

Lemma absent_cells_count_failures_witness :
  List.length (filter isna [VBool true; VNone; VBool true])
  = List.length (filter failed (replies flaky (bodies_of three_rows) 0%nat)).
Proof.
  exact (absent_cells_count_failures flaky three_rows _ 0%nat _ _
           three_rows_well_formed flaky_carries_values eq_refl eq_refl).
Defined.








(** X13.  The test each mode applies to a response.  The
    single-prediction mode takes it as a success exactly when its status
    is 200: it then renders the two members of the body, and for any
    other status it shows an error that carries the status and the raw
    text of the response.  The batch loop takes it as a success exactly
    when its status is outside 400..599: it then records the two members
    of the body, and otherwise records two absent cells, keeping neither
    the status nor the text.  The two tests give the same verdict exactly
    on status 200 and on 400..599. *)
Theorem success_tests_of_the_modes {World : Type}
  (post : payload -> World -> post_outcome * World)
  (resp : Response) (w w' : World) :
  (forall f,
     predict_pressed f = true ->
     post (single_payload f) w = (Responded resp, w') ->
     (status_code resp <> 200 ->
      single_prediction post f (fresh w)
      = (Ok tt,
         mkSession w' [single_payload f]
           [st_header "Single-customer Prediction";
            st_error ("API error " ++ str_of_Z (status_code resp) ++ ": "
                      ++ text resp)])) /\
     (status_code resp = 200 ->
      forall out will_buy prob percent,
        json resp = Ok out ->
        subscript out "will_buy_after_price_increase" = Ok will_buy ->
        subscript out "probability" = Ok prob ->
        format_percent1 prob = Ok percent ->
        single_prediction post f (fresh w)
        = (Ok tt,
           mkSession w' [single_payload f]
             [st_header "Single-customer Prediction";
              st_markdown ("### " ++
                           (if truthy will_buy then label_continue else label_stop)
                           ++ newline ++ "Probability of continuing: **"
                           ++ percent ++ "**")]))) /\
  (forall cols row,
     serialisable (to_dict cols row) = true ->
     post (to_dict cols row) w = (Responded resp, w') ->
     (400 <= status_code resp < 600 ->
      score_rows post cols [row] [] [] (fresh w)
      = (Ok ([VNone], [VNone]), mkSession w' [to_dict cols row] [])) /\
     (~ 400 <= status_code resp < 600 ->
      forall out pred prob,
        json resp = Ok out ->
        subscript out "will_buy_after_price_increase" = Ok pred ->
        subscript out "probability" = Ok prob ->
        score_rows post cols [row] [] [] (fresh w)
        = (Ok ([pred], [prob]), mkSession w' [to_dict cols row] []))) /\
  ((status_code resp =? 200) = ok resp <->
   status_code resp = 200 \/ 400 <= status_code resp < 600).
Proof.
  split; [|split].
  - intros f Hpressed Hpost. split.
    + intros Hne. apply Z.eqb_neq in Hne.
      unfold single_prediction, bind, show, requests_post, fresh. simpl.
      rewrite Hpressed. simpl. rewrite Hpost, Hne. reflexivity.
    + intros Heq out will_buy prob percent Hj H1 H2 H3.
      apply Z.eqb_eq in Heq.
      unfold single_prediction, bind, show, requests_post, lift, fresh. simpl.
      rewrite Hpressed. simpl. rewrite Hpost, Heq, Hj, H1, H2, H3. reflexivity.
  - intros cols row Hser Hpost. split.
    + intros Hrange.
      assert (Hok : ok resp = false).
      { unfold ok. apply negb_false_iff, andb_true_iff.
        split; [apply Z.leb_le | apply Z.ltb_lt]; lia. }
      unfold fresh. simpl. unfold bind, requests_post, ret. simpl.
      rewrite Hser, Hpost, Hok. reflexivity.
    + intros Hrange out pred prob Hj H1 H2.
      assert (Hok : ok resp = true).
      { unfold ok. apply negb_true_iff, andb_false_iff.
        destruct (Z.leb_spec 400 (status_code resp)); [right | left; reflexivity].
        apply Z.ltb_ge. lia. }
      unfold fresh. simpl. unfold bind, requests_post, lift, ret. simpl.
      rewrite Hser, Hpost, Hok, Hj, H1, H2. reflexivity.
  - unfold ok.
    destruct (Z.eqb_spec (status_code resp) 200) as [E|E];
      destruct (Z.leb_spec 400 (status_code resp));
      destruct (Z.ltb_spec (status_code resp) 600); simpl;
      split; intros Hcmp; try reflexivity; try discriminate; lia.
Qed.

Lemma success_tests_of_the_modes_witness :
  single_prediction (always 404) untouched_form (fresh 0%nat)
  = (Ok tt,
     mkSession 1%nat [single_payload untouched_form]
       [st_header "Single-customer Prediction";
        st_error "API error 404: body text"]) /\
  score_rows (always 404) ["total_spent"] [[VFloat 100]] [] [] (fresh 0%nat)
  = (Ok ([VNone], [VNone]), mkSession 1%nat [[("total_spent", VFloat 100)]] []).
Proof.
  pose proof (success_tests_of_the_modes (always 404)
                (mkResponse 404 "body text" (Some good_body)) 0%nat 1%nat)
    as (Hsingle & Hbatch & _).
  split.
  - apply (Hsingle untouched_form eq_refl eq_refl). discriminate.
  - apply (Hbatch ["total_spent"] [VFloat 100] eq_refl eq_refl). simpl. lia.
Defined.

